(** * RenderDoc auto-capture helper of vkd3d-proton

    A shallow embedding of [libs/vkd3d-common/renderdoc.c]: the parser of
    [VKD3D_AUTO_CAPTURE_COUNTS], the one-time initialiser and the capture
    controller ([vkd3d_renderdoc_begin_capture] and friends), together with
    the properties of the natural-language specification.

    Conventions.
    - A C string is a [string]; the terminating NUL is the end of the Rocq
      string, and [peek] reads ['\0'] there.  A pointer into the same buffer
      is the suffix that starts at it.
    - [uint32_t], [uint64_t] and [unsigned long] are [Z] with the wrap-around
      written out.
    - The file-scope statics of the translation unit are the fields of
      [state]; every C function is a computation of the monad [M]. *)

From Stdlib Require Import ZArith Bool List String Ascii Lia.
From Stdlib Require DecimalString HexadecimalString DecimalPos DecimalN
  HexadecimalPos HexadecimalN DecimalFacts.
Import ListNotations.

Local Open Scope Z_scope.

(** ** The C library side: [strtoul] and [strtoull] *)

Module Libc.

(** Width of [unsigned long]: 32 bits on native Windows (LLP64), 64 bits on
    Linux (LP64).  [unsigned long long] is 64 bits on both. *)
Inductive data_model := LLP64 | LP64.

Definition ULONG_MAX (dm : data_model) : Z :=
  match dm with
  | LLP64 => 2 ^ 32 - 1
  | LP64 => 2 ^ 64 - 1
  end.

Definition ULLONG_MAX : Z := 2 ^ 64 - 1.

Definition ERANGE : Z := 34.

Definition NUL : ascii := Ascii.zero.

(** [*p] for a [const char *p]. *)
Definition peek (p : string) : ascii :=
  match p with
  | EmptyString => NUL
  | String c _ => c
  end.

(** [p + 1], for a [p] that does not point at the terminator. *)
Definition next (p : string) : string :=
  match p with
  | EmptyString => EmptyString
  | String _ r => r
  end.

Definition code (c : ascii) : Z := Z.of_N (N_of_ascii c).

(** [isspace] in the "C" locale: space, and [\t \n \v \f \r]. *)
Definition isspace (c : ascii) : bool :=
  (code c =? 32) || ((9 <=? code c) && (code c <=? 13)).

(** Value of a character as a digit, letters standing for 10 to 35. *)
Definition digit_value (c : ascii) : option Z :=
  let n := code c in
  if (48 <=? n) && (n <=? 57) then Some (n - 48)
  else if (97 <=? n) && (n <=? 122) then Some (n - 97 + 10)
  else if (65 <=? n) && (n <=? 90) then Some (n - 65 + 10)
  else None.

Definition digit_in_base (base : Z) (c : ascii) : option Z :=
  match digit_value c with
  | Some d => if d <? base then Some d else None
  | None => None
  end.

Fixpoint skip_space (p : string) : string :=
  match p with
  | String c r => if isspace c then skip_space r else p
  | EmptyString => p
  end.

(** Optional sign: [(negative, rest)]. *)
Definition take_sign (p : string) : bool * string :=
  match p with
  | String "-" r => (true, r)
  | String "+" r => (false, r)
  | _ => (false, p)
  end.

Definition is_x (c : ascii) : bool := (code c =? 120) || (code c =? 88).

(** Base selection and the optional [0x] prefix.  With base 0 a leading
    [0x] followed by a hexadecimal digit selects base 16, another leading
    [0] selects base 8, anything else base 10.  A [0x] that no hexadecimal
    digit follows is not a prefix: the subject sequence is then the [0]. *)
Definition take_prefix (base : Z) (p : string) : Z * string :=
  match p with
  | String "0" (String x (String h r)) =>
      if ((base =? 0) || (base =? 16)) && is_x x
         && match digit_in_base 16 h with Some _ => true | None => false end
      then (16, String h r)
      else if base =? 0 then (8, p) else (base, p)
  | String "0" _ => if base =? 0 then (8, p) else (base, p)
  | _ => if base =? 0 then (10, p) else (base, p)
  end.

(** The digits of the subject sequence: accumulated value and the first
    character that is not a digit of the base. *)
Fixpoint scan_digits (base acc : Z) (p : string) : Z * string :=
  match p with
  | String c r =>
      match digit_in_base base c with
      | Some d => scan_digits base (acc * base + d) r
      | None => (acc, p)
      end
  | EmptyString => (acc, p)
  end.

Record conversion := Conversion {
  conv_value : Z;            (* the returned number *)
  conv_endp : string;        (* what [*endptr] is set to *)
  conv_errno : option Z      (* the value stored to [errno], if any *)
}.

(** ISO C 7.22.1.4 for an unsigned type of maximum [umax].  When no digit
    can be read no conversion is performed: the result is 0, [*endptr] is
    [nptr] and [errno] is left alone (glibc and the Microsoft runtime do
    so).  A magnitude above [umax] gives [umax] and [ERANGE]; a
    leading minus negates the result in the unsigned type. *)
Definition strto_unsigned (umax : Z) (nptr : string) (base : Z) : conversion :=
  let '(neg, p1) := take_sign (skip_space nptr) in
  let '(b, p2) := take_prefix base p1 in
  match digit_in_base b (peek p2) with
  | None => Conversion 0 nptr None
  | Some _ =>
      let '(v, rest) := scan_digits b 0 p2 in
      if v >? umax then Conversion umax rest (Some ERANGE)
      else Conversion (if neg then (- v) mod (umax + 1) else v) rest None
  end.

Definition strtoul (dm : data_model) (nptr : string) (base : Z) : conversion :=
  strto_unsigned (ULONG_MAX dm) nptr base.

Definition strtoull (nptr : string) (base : Z) : conversion :=
  strto_unsigned ULLONG_MAX nptr base.

End Libc.

Import Libc.

(** ** The translation unit's state *)

Definition UINT32_MOD : Z := 2 ^ 32.

(** Conversion to [uint32_t]. *)
Definition to_uint32 (v : Z) : Z := v mod UINT32_MOD.

(** What the debug channel and the RenderDoc API receive, oldest first. *)
Inductive event :=
| WARN_not_enabled
| WARN_counts_not_set
| TRACE_shader_hash (hash : Z)
| TRACE_all_shaders
| ERR_parsing_auto_counts
| TRACE_submit (count : Z)
| ERR_unexpected_character (c : ascii)
| ERR_no_library
| ERR_no_get_api
| ERR_no_api
| StartFrameCapture (instance : Z)
| EndFrameCapture (instance : Z).

(** The statics of renderdoc.c.  [renderdoc_capture_counts] holds the
    [renderdoc_capture_counts_count] elements of the array that are in use;
    [renderdoc_api] says whether the pointer is non-NULL. *)
Record state := State {
  renderdoc_api : bool;
  renderdoc_capture_shader_hash : Z;
  renderdoc_capture_counts : list Z;
  vkd3d_renderdoc_is_active : bool;
  overall_counter : Z;
  vkd3d_renderdoc_once : bool;
  errno : Z;
  log : list event
}.

Definition renderdoc_capture_counts_count (st : state) : nat :=
  List.length (renderdoc_capture_counts st).

(** Static storage is zero-initialised. *)
Definition initial_state : state :=
  State false 0 [] false 0 false 0 [].

Definition with_api (b : bool) (st : state) : state :=
  State b (renderdoc_capture_shader_hash st) (renderdoc_capture_counts st)
    (vkd3d_renderdoc_is_active st) (overall_counter st)
    (vkd3d_renderdoc_once st) (errno st) (log st).

Definition with_hash (h : Z) (st : state) : state :=
  State (renderdoc_api st) h (renderdoc_capture_counts st)
    (vkd3d_renderdoc_is_active st) (overall_counter st)
    (vkd3d_renderdoc_once st) (errno st) (log st).

Definition with_counts (l : list Z) (st : state) : state :=
  State (renderdoc_api st) (renderdoc_capture_shader_hash st) l
    (vkd3d_renderdoc_is_active st) (overall_counter st)
    (vkd3d_renderdoc_once st) (errno st) (log st).

Definition with_active (b : bool) (st : state) : state :=
  State (renderdoc_api st) (renderdoc_capture_shader_hash st)
    (renderdoc_capture_counts st) b (overall_counter st)
    (vkd3d_renderdoc_once st) (errno st) (log st).

Definition with_counter (v : Z) (st : state) : state :=
  State (renderdoc_api st) (renderdoc_capture_shader_hash st)
    (renderdoc_capture_counts st) (vkd3d_renderdoc_is_active st) v
    (vkd3d_renderdoc_once st) (errno st) (log st).

Definition with_once (b : bool) (st : state) : state :=
  State (renderdoc_api st) (renderdoc_capture_shader_hash st)
    (renderdoc_capture_counts st) (vkd3d_renderdoc_is_active st)
    (overall_counter st) b (errno st) (log st).

Definition with_errno (e : Z) (st : state) : state :=
  State (renderdoc_api st) (renderdoc_capture_shader_hash st)
    (renderdoc_capture_counts st) (vkd3d_renderdoc_is_active st)
    (overall_counter st) (vkd3d_renderdoc_once st) e (log st).

Definition with_log (l : list event) (st : state) : state :=
  State (renderdoc_api st) (renderdoc_capture_shader_hash st)
    (renderdoc_capture_counts st) (vkd3d_renderdoc_is_active st)
    (overall_counter st) (vkd3d_renderdoc_once st) (errno st) l.

(** ** A state monad for the C functions *)

Definition M (A : Type) : Type := state -> A * state.

Definition ret {A} (a : A) : M A := fun st => (a, st).

Definition bind {A B} (m : M A) (k : A -> M B) : M B :=
  fun st => let '(a, st') := m st in k a st'.

Definition gets {A} (f : state -> A) : M A := fun st => (f st, st).

Definition modify (f : state -> state) : M unit := fun st => (tt, f st).

Notation "x <- m ;; k" := (bind m (fun x => k))
  (at level 61, m at next level, right associativity).
Notation "m ;; k" := (bind m (fun _ => k))
  (at level 61, right associativity).

(** [ERR], [WARN], [TRACE] and the calls through [renderdoc_api]. *)
Definition emit (e : event) : M unit :=
  modify (fun st => with_log (log st ++ [e]) st).

(** [when c m] is [if (c) m;]. *)
Definition when (c : bool) (m : M unit) : M unit :=
  if c then m else ret tt.

(** What a library call stores to [errno]. *)
Definition store_errno (e : option Z) : M unit :=
  match e with
  | Some v => modify (with_errno v)
  | None => ret tt
  end.

(** ** The counts parser *)

Inductive loop_control :=
| Break
| Continue (env : string).

Definition is_comma (c : ascii) : bool := code c =? 44.
Definition is_nul (c : ascii) : bool := code c =? 0.

(** Modelled from the spec: [vkd3d_array_reserve] (memory.c, not in this
    translation unit) grows the array so that the requested number of
    elements fits; its result is not checked by the caller, and the store
    that follows is the append below. *)
Definition vkd3d_array_reserve_and_store (count : Z) : M unit :=
  modify (fun st => with_counts (renderdoc_capture_counts st ++ [count]) st).

(** One turn of the [while] loop of
    [vkd3d_renderdoc_init_capture_count_list], entered with
    [*env != '\0']. *)
Definition count_list_body (dm : data_model) (env : string) : M loop_control :=
  modify (with_errno 0) ;;
  let r := strtoul dm env 0 in
  store_errno (conv_errno r) ;;
  let count := to_uint32 (conv_value r) in
  let endp := conv_endp r in
  e <- gets errno ;;
  if negb (e =? 0) then
    emit ERR_parsing_auto_counts ;;
    ret Break
  else
    emit (TRACE_submit count) ;;
    vkd3d_array_reserve_and_store count ;;
    if is_comma (peek endp) then
      ret (Continue (next endp))
    else if negb (is_nul (peek endp)) then
      emit (ERR_unexpected_character (peek endp)) ;;
      ret Break
    else
      ret (Continue endp).

(** The loop, on a bounded number of turns; the result says whether the
    loop was left ([true]) or the bound was reached ([false]). *)
Fixpoint count_list_loop (fuel : nat) (dm : data_model) (env : string) : M bool :=
  match fuel with
  | O => ret false
  | S fuel' =>
      if is_nul (peek env) then ret true
      else
        c <- count_list_body dm env ;;
        match c with
        | Break => ret true
        | Continue env' => count_list_loop fuel' dm env'
        end
  end.

(** Every turn but the last moves [env] forward, so one more turn than the
    string has characters is enough ([count_list_loop_terminates]). *)
Definition vkd3d_renderdoc_init_capture_count_list
    (dm : data_model) (env : string) : M unit :=
  count_list_loop (S (String.length env)) dm env ;;
  ret tt.

(** What a turn leaves in the statics, by the way it ends. *)
Definition turn_failed_range (st : state) : state :=
  with_log (log st ++ [ERR_parsing_auto_counts]) (with_errno ERANGE st).

Definition turn_stored (count : Z) (st : state) : state :=
  with_counts (renderdoc_capture_counts st ++ [count])
    (with_log (log st ++ [TRACE_submit count]) (with_errno 0 st)).

Definition turn_failed_character (count : Z) (c : ascii) (st : state) : state :=
  let st' := turn_stored count st in
  with_log (log st' ++ [ERR_unexpected_character c]) st'.

(** The parser writes [renderdoc_capture_counts], [errno] and the log, and
    nothing else. *)
Definition same_controller (st st' : state) : Prop :=
  renderdoc_api st' = renderdoc_api st /\
  renderdoc_capture_shader_hash st' = renderdoc_capture_shader_hash st /\
  vkd3d_renderdoc_is_active st' = vkd3d_renderdoc_is_active st /\
  overall_counter st' = overall_counter st /\
  vkd3d_renderdoc_once st' = vkd3d_renderdoc_once st.

(** ** The capture controller *)

(** The [for] loop of [vkd3d_renderdoc_enable_submit_counter] over the
    elements in use. *)
Fixpoint counts_contain (counts : list Z) (counter : Z) : bool :=
  match counts with
  | [] => false
  | c :: rest => if c =? counter then true else counts_contain rest counter
  end.

Definition vkd3d_renderdoc_enable_submit_counter (counter : Z) : M bool :=
  gets (fun st => counts_contain (renderdoc_capture_counts st) counter).

(** What the process offers to [vkd3d_renderdoc_init_once]: the two
    environment variables, and how far the lookup of the RenderDoc API
    gets.  [GetAPI ret api] is a resolved [RENDERDOC_GetAPI] that returns
    [ret] and leaves a non-NULL pointer in [renderdoc_api] iff [api]. *)
Inductive loader :=
| NoLibrary
| NoGetAPI
| GetAPI (ret : bool) (api : bool).

Record host := Host {
  host_data_model : data_model;
  VKD3D_AUTO_CAPTURE_SHADER : option string;
  VKD3D_AUTO_CAPTURE_COUNTS : option string;
  host_renderdoc : loader
}.

Definition is_some {A} (o : option A) : bool :=
  match o with Some _ => true | None => false end.

Definition vkd3d_renderdoc_load_api (l : loader) : M unit :=
  match l with
  | NoLibrary => emit ERR_no_library
  | NoGetAPI => emit ERR_no_get_api
  | GetAPI ret api =>
      modify (with_api api) ;;
      when (negb ret) (emit ERR_no_api ;; modify (with_api false))
  end.

Definition vkd3d_renderdoc_init_once (h : host) : M unit :=
  let env := VKD3D_AUTO_CAPTURE_SHADER h in
  let counts := VKD3D_AUTO_CAPTURE_COUNTS h in
  if negb (is_some env) && negb (is_some counts) then
    emit WARN_not_enabled
  else
    when (negb (is_some counts)) (emit WARN_counts_not_set) ;;
    match env with
    | Some s =>
        let r := strtoull s 16 in
        store_errno (conv_errno r) ;;
        modify (with_hash (conv_value r))
    | None => ret tt
    end ;;
    hash <- gets renderdoc_capture_shader_hash ;;
    (if negb (hash =? 0) then emit (TRACE_shader_hash hash)
     else emit TRACE_all_shaders) ;;
    match counts with
    | Some c => vkd3d_renderdoc_init_capture_count_list (host_data_model h) c
    | None => modify (with_counts [0])
    end ;;
    modify (with_active true) ;;
    vkd3d_renderdoc_load_api (host_renderdoc h).

(** [pthread_once]: the first call runs the initialiser, later ones do
    nothing. *)
Definition vkd3d_renderdoc_init (h : host) : M unit :=
  done <- gets vkd3d_renderdoc_once ;;
  if done then ret tt
  else
    modify (with_once true) ;;
    vkd3d_renderdoc_init_once h.

Definition vkd3d_renderdoc_active : M bool :=
  gets vkd3d_renderdoc_is_active.

Definition vkd3d_renderdoc_should_capture_shader_hash (hash : Z) : M bool :=
  target <- gets renderdoc_capture_shader_hash ;;
  ret ((target =? hash) || (target =? 0)).

(** Modelled from the spec: [vkd3d_atomic_uint32_increment] (vkd3d_spinlock.h,
    not in this translation unit) adds one to the [uint32_t] and returns the
    new value; the caller subtracts one to get the value before. *)
Definition vkd3d_atomic_uint32_increment : M Z :=
  v <- gets overall_counter ;;
  let v' := to_uint32 (v + 1) in
  modify (with_counter v') ;;
  ret v'.

Definition vkd3d_renderdoc_begin_capture (instance : Z) : M bool :=
  v <- vkd3d_atomic_uint32_increment ;;
  let counter := to_uint32 (v - 1) in
  enabled <- vkd3d_renderdoc_enable_submit_counter counter ;;
  if negb enabled then ret false
  else
    api <- gets renderdoc_api ;;
    when api (emit (StartFrameCapture instance)) ;;
    ret true.

Definition vkd3d_renderdoc_loaded_api : M bool :=
  gets renderdoc_api.

Definition vkd3d_renderdoc_end_capture (instance : Z) : M unit :=
  api <- gets renderdoc_api ;;
  when api (emit (EndFrameCapture instance)).

(** ** Runs *)

(** The process after [vkd3d_renderdoc_init]. *)
Definition after_init (h : host) : state :=
  snd (vkd3d_renderdoc_init h initial_state).

(** Successive calls of [vkd3d_renderdoc_begin_capture], one per element of
    [instances], with their results in call order. *)
Fixpoint begin_captures (instances : list Z) : M (list bool) :=
  match instances with
  | [] => ret []
  | i :: rest =>
      b <- vkd3d_renderdoc_begin_capture i ;;
      bs <- begin_captures rest ;;
      ret (b :: bs)
  end.

(** The hash that [vkd3d_renderdoc_init_once] configures. *)
Definition configured_hash (h : host) : Z :=
  match VKD3D_AUTO_CAPTURE_SHADER h with
  | Some s => conv_value (strtoull s 16)
  | None => 0
  end.

(** The list that [vkd3d_renderdoc_init_once] configures when capture is
    enabled. *)
Definition configured_counts (h : host) : list Z :=
  match VKD3D_AUTO_CAPTURE_COUNTS h with
  | Some c =>
      renderdoc_capture_counts
        (snd (vkd3d_renderdoc_init_capture_count_list
                (host_data_model h) c initial_state))
  | None => [0]
  end.

(** [0 <= v < 2^32]. *)
Definition is_uint32 (v : Z) : Prop := 0 <= v < UINT32_MOD.

(** ** Sequences of calls of the public interface *)

(** The entry points declared in vkd3d_renderdoc.h. *)
Inductive api_call :=
| Call_init (h : host)
| Call_active
| Call_loaded_api
| Call_should_capture_shader_hash (hash : Z)
| Call_begin_capture (instance : Z)
| Call_end_capture (instance : Z).

Definition run_call (c : api_call) : M unit :=
  match c with
  | Call_init h => vkd3d_renderdoc_init h
  | Call_active => vkd3d_renderdoc_active ;; ret tt
  | Call_loaded_api => vkd3d_renderdoc_loaded_api ;; ret tt
  | Call_should_capture_shader_hash hash =>
      vkd3d_renderdoc_should_capture_shader_hash hash ;; ret tt
  | Call_begin_capture instance =>
      vkd3d_renderdoc_begin_capture instance ;; ret tt
  | Call_end_capture instance => vkd3d_renderdoc_end_capture instance
  end.

Fixpoint run_calls (cs : list api_call) : M unit :=
  match cs with
  | [] => ret tt
  | c :: rest => run_call c ;; run_calls rest
  end.

Definition is_begin_capture (c : api_call) : bool :=
  match c with
  | Call_begin_capture _ => true
  | _ => false
  end.

(** The calls made through [renderdoc_api], as the log has them. *)
Definition is_renderdoc_call (e : event) : bool :=
  match e with
  | StartFrameCapture _ | EndFrameCapture _ => true
  | _ => false
  end.

Definition renderdoc_calls (l : list event) : list event :=
  filter is_renderdoc_call l.

(** The instances of the calls that returned true. *)
Fixpoint captured (instances : list Z) (results : list bool) : list Z :=
  match instances, results with
  | i :: is', b :: bs => if b then i :: captured is' bs else captured is' bs
  | _, _ => []
  end.

(** The errors the counts parser reports. *)
Definition is_parse_error (e : event) : bool :=
  match e with
  | ERR_parsing_auto_counts | ERR_unexpected_character _ => true
  | _ => false
  end.

(** What a run of the parser may report: nothing, or one error. *)
Definition at_most_one_error (err : list event) : Prop :=
  err = [] \/ exists e, err = [e] /\ is_parse_error e = true.

(** How far the lookup of the RenderDoc API must get for [renderdoc_api] to
    be set. *)
Definition api_resolved (l : loader) : bool :=
  match l with
  | GetAPI true true => true
  | _ => false
  end.

(** ** Texts of numbers *)

(** A number as a user writes it: in decimal without leading zeros, and in
    hexadecimal with lower-case digits. *)
Definition decimal (n : N) : string :=
  DecimalString.NilEmpty.string_of_uint (N.to_uint n).

Definition hexadecimal (n : N) : string :=
  HexadecimalString.NilEmpty.string_of_uint (N.to_hex_uint n).

(** An element of a counts spec: a decimal number, or [0x] and a
    hexadecimal number. *)
Inductive count_token :=
| Dec (n : N)
| Hex (n : N).

Definition token_value (t : count_token) : N :=
  match t with
  | Dec n => n
  | Hex n => n
  end.

Definition token_text (t : count_token) : string :=
  match t with
  | Dec n => decimal n
  | Hex n => String "0" (String "x" (hexadecimal n))
  end.

(** The tokens with a comma between them. *)
Fixpoint counts_text (l : list count_token) : string :=
  match l with
  | [] => EmptyString
  | t :: rest =>
      match rest with
      | [] => token_text t
      | _ => String.append (token_text t) (String "," (counts_text rest))
      end
  end.

(** Unfolding of the monad's operations. *)
Ltac run_M :=
  unfold bind, ret, gets, modify, emit, when, store_errno,
    vkd3d_array_reserve_and_store; simpl.

(** * Properties *)

(** ** The conversions *)

Example strtoul_dec : strtoul LP64 "12,34" 0 = Conversion 12 ",34" None.
Proof. reflexivity. Qed.

Example strtoul_hex : strtoul LLP64 "0x10,20" 0 = Conversion 16 ",20" None.
Proof. reflexivity. Qed.

Example strtoul_noconv : strtoul LP64 "x,3" 0 = Conversion 0 "x,3" None.
Proof. reflexivity. Qed.

Example strtoul_range :
  strtoul LLP64 "4294967296,1" 0 = Conversion 4294967295 ",1" (Some ERANGE).
Proof. reflexivity. Qed.

Example strtoul_wide :
  strtoul LP64 "4294967296,1" 0 = Conversion 4294967296 ",1" None.
Proof. reflexivity. Qed.

Example strtoul_0x_alone : strtoul LP64 "0xg" 0 = Conversion 0 "xg" None.
Proof. reflexivity. Qed.

Example strtoull_hex16 : strtoull "DEADbeef" 16 = Conversion 3735928559 "" None.
Proof. reflexivity. Qed.

(** [*endptr] never lies before [nptr]: every stage of the conversion
    returns a suffix of what it was given. *)

Lemma skip_space_length p :
  (String.length (skip_space p) <= String.length p)%nat.
Proof.
  induction p as [|c r IH]; simpl; [lia|].
  destruct (isspace c); simpl; lia.
Qed.

Lemma take_sign_length p :
  (String.length (snd (take_sign p)) <= String.length p)%nat.
Proof.
  destruct p as [|c r]; simpl; [lia|].
  destruct c as [[] [] [] [] [] [] [] []]; simpl; lia.
Qed.

Lemma take_prefix_length base p :
  (String.length (snd (take_prefix base p)) <= String.length p)%nat.
Proof.
  unfold take_prefix.
  repeat match goal with
         | |- context [match ?x with _ => _ end] => destruct x
         end; simpl; lia.
Qed.

Lemma scan_digits_length base p : forall acc,
  (String.length (snd (scan_digits base acc p)) <= String.length p)%nat.
Proof.
  induction p as [|c r IH]; intros acc; simpl; [lia|].
  destruct (digit_in_base base c); simpl; [|lia].
  specialize (IH (acc * base + z)). lia.
Qed.

Lemma strto_unsigned_endp_length umax nptr base :
  (String.length (conv_endp (strto_unsigned umax nptr base))
   <= String.length nptr)%nat.
Proof.
  unfold strto_unsigned.
  pose proof (skip_space_length nptr) as Hs.
  pose proof (take_sign_length (skip_space nptr)) as Hg.
  destruct (take_sign (skip_space nptr)) as [neg p1]; simpl in Hg.
  pose proof (take_prefix_length base p1) as Hp.
  destruct (take_prefix base p1) as [b p2]; simpl in Hp.
  destruct (digit_in_base b (peek p2)); simpl; [|lia].
  pose proof (scan_digits_length b p2 0) as Hd.
  destruct (scan_digits b 0 p2) as [v rest]; simpl in Hd.
  destruct (v >? umax); simpl; lia.
Qed.

(** The only error a conversion reports is [ERANGE]. *)
Lemma strto_unsigned_errno umax nptr base :
  conv_errno (strto_unsigned umax nptr base) = None \/
  conv_errno (strto_unsigned umax nptr base) = Some ERANGE.
Proof.
  unfold strto_unsigned.
  destruct (take_sign (skip_space nptr)) as [neg p1].
  destruct (take_prefix base p1) as [b p2].
  destruct (digit_in_base b (peek p2)); simpl; [|now left].
  destruct (scan_digits b 0 p2) as [v rest].
  destruct (v >? umax); simpl; auto.
Qed.


(** ** One turn of the parser loop *)

Lemma count_list_body_range dm env st :
  conv_errno (strtoul dm env 0) = Some ERANGE ->
  count_list_body dm env st = (Break, turn_failed_range st).
Proof.
  intros E. unfold count_list_body. rewrite E. run_M. reflexivity.
Qed.

Lemma count_list_body_converted dm env st :
  conv_errno (strtoul dm env 0) = None ->
  let r := strtoul dm env 0 in
  let count := to_uint32 (conv_value r) in
  let endp := conv_endp r in
  count_list_body dm env st =
    if is_comma (peek endp) then (Continue (next endp), turn_stored count st)
    else if negb (is_nul (peek endp))
         then (Break, turn_failed_character count (peek endp) st)
         else (Continue endp, turn_stored count st).
Proof.
  intros E. unfold count_list_body. rewrite E. run_M.
  destruct (is_comma _); [reflexivity|].
  destruct (is_nul _); reflexivity.
Qed.

(** A turn that goes on has moved [env] forward, or has reached the
    terminator. *)
Lemma count_list_body_progress dm env st env' st' :
  is_nul (peek env) = false ->
  count_list_body dm env st = (Continue env', st') ->
  (String.length env' < String.length env)%nat \/ is_nul (peek env') = true.
Proof.
  intros Hn H.
  destruct (strto_unsigned_errno (ULONG_MAX dm) env 0) as [E|E];
    fold (strtoul dm env 0) in E.
  - rewrite (count_list_body_converted dm env st E) in H.
    pose proof (strto_unsigned_endp_length (ULONG_MAX dm) env 0) as Hl.
    fold (strtoul dm env 0) in Hl.
    destruct (is_comma (peek (conv_endp (strtoul dm env 0)))) eqn:Hc.
    + inversion H; subst. left.
      destruct (conv_endp (strtoul dm env 0)); simpl in *; [discriminate|lia].
    + destruct (is_nul (peek (conv_endp (strtoul dm env 0)))) eqn:Hz;
        simpl in H; [|discriminate].
      inversion H; subst. now right.
  - rewrite (count_list_body_range dm env st E) in H. discriminate.
Qed.

(** ** Termination of the loop *)

Lemma count_list_loop_at_nul fuel dm env st :
  is_nul (peek env) = true ->
  count_list_loop (S fuel) dm env st = (true, st).
Proof. intros H. simpl. rewrite H. reflexivity. Qed.

Lemma count_list_loop_terminates fuel : forall dm env st,
  (String.length env < fuel)%nat ->
  fst (count_list_loop fuel dm env st) = true.
Proof.
  induction fuel as [|fuel IH]; intros dm env st Hlt; [lia|].
  simpl. destruct (is_nul (peek env)) eqn:Hn; [reflexivity|].
  unfold bind.
  destruct (count_list_body dm env st) as [[|env'] st'] eqn:Hb; [reflexivity|].
  destruct (count_list_body_progress _ _ _ _ _ Hn Hb) as [Hl|Hz].
  - apply IH. lia.
  - destruct fuel as [|fuel'].
    + destruct env; simpl in *; [discriminate|lia].
    + rewrite count_list_loop_at_nul by assumption. reflexivity.
Qed.

(** More turns than needed change nothing. *)
Lemma count_list_loop_more_fuel fuel : forall dm env st extra,
  fst (count_list_loop fuel dm env st) = true ->
  count_list_loop (fuel + extra) dm env st = count_list_loop fuel dm env st.
Proof.
  induction fuel as [|fuel IH]; intros dm env st extra H; [discriminate|].
  simpl in *. destruct (is_nul (peek env)); [reflexivity|].
  unfold bind in *.
  destruct (count_list_body dm env st) as [[|env'] st']; [reflexivity|].
  now apply IH.
Qed.

Lemma vkd3d_renderdoc_init_capture_count_list_total dm env st :
  fst (count_list_loop (S (String.length env)) dm env st) = true.
Proof. apply count_list_loop_terminates. lia. Qed.

(** ** What the parser touches *)


Lemma same_controller_refl st : same_controller st st.
Proof. repeat split. Qed.

Lemma same_controller_trans st1 st2 st3 :
  same_controller st1 st2 -> same_controller st2 st3 -> same_controller st1 st3.
Proof.
  unfold same_controller. intros (A1 & B1 & C1 & D1 & E1) (A2 & B2 & C2 & D2 & E2).
  repeat split; congruence.
Qed.

Lemma count_list_body_frame dm env st :
  same_controller st (snd (count_list_body dm env st)).
Proof.
  destruct (strto_unsigned_errno (ULONG_MAX dm) env 0) as [E|E];
    fold (strtoul dm env 0) in E.
  - rewrite (count_list_body_converted dm env st E).
    destruct (is_comma _); [repeat split|].
    destruct (is_nul _); repeat split.
  - rewrite (count_list_body_range dm env st E). repeat split.
Qed.

Lemma count_list_loop_frame fuel : forall dm env st,
  same_controller st (snd (count_list_loop fuel dm env st)).
Proof.
  induction fuel as [|fuel IH]; intros dm env st; simpl.
  - apply same_controller_refl.
  - destruct (is_nul (peek env)); [apply same_controller_refl|].
    unfold bind.
    pose proof (count_list_body_frame dm env st) as Hb.
    destruct (count_list_body dm env st) as [[|env'] st']; simpl in *;
      [assumption|].
    eapply same_controller_trans; [eassumption|apply IH].
Qed.

(** Which turn follows, and what is stored, depends on the text alone:
    started on a list that already has elements, the parser appends what it
    appends to the empty list. *)
Lemma count_list_body_control dm env st1 st2 :
  fst (count_list_body dm env st1) = fst (count_list_body dm env st2).
Proof.
  destruct (strto_unsigned_errno (ULONG_MAX dm) env 0) as [E|E];
    fold (strtoul dm env 0) in E.
  - rewrite !(count_list_body_converted dm env _ E).
    destruct (is_comma _); [reflexivity|].
    destruct (is_nul _); reflexivity.
  - rewrite !(count_list_body_range dm env _ E). reflexivity.
Qed.

Lemma count_list_body_appends dm env :
  exists l,
    forall st0, renderdoc_capture_counts (snd (count_list_body dm env st0)) =
                (renderdoc_capture_counts st0 ++ l)%list.
Proof.
  destruct (strto_unsigned_errno (ULONG_MAX dm) env 0) as [E|E];
    fold (strtoul dm env 0) in E.
  - exists [to_uint32 (conv_value (strtoul dm env 0))]. intros st0.
    rewrite (count_list_body_converted dm env st0 E).
    destruct (is_comma _); [reflexivity|].
    destruct (is_nul _); reflexivity.
  - exists []. intros st0.
    rewrite (count_list_body_range dm env st0 E). simpl.
    now rewrite app_nil_r.
Qed.

Lemma count_list_loop_appends fuel : forall dm env,
  exists l,
    forall st, renderdoc_capture_counts (snd (count_list_loop fuel dm env st)) =
               (renderdoc_capture_counts st ++ l)%list.
Proof.
  induction fuel as [|fuel IH]; intros dm env; simpl.
  - exists []. intros st. simpl. now rewrite app_nil_r.
  - destruct (is_nul (peek env)).
    + exists []. intros st. simpl. now rewrite app_nil_r.
    + destruct (count_list_body_appends dm env) as [l1 H1].
      destruct (fst (count_list_body dm env initial_state)) as [|env'] eqn:Hc.
      * exists l1. intros st. unfold bind.
        pose proof (count_list_body_control dm env st initial_state) as Hs.
        specialize (H1 st).
        destruct (count_list_body dm env st) as [c st']; simpl in *.
        rewrite Hc in Hs; subst c. assumption.
      * destruct (IH dm env') as [l2 H2].
        exists (l1 ++ l2)%list. intros st. unfold bind.
        pose proof (count_list_body_control dm env st initial_state) as Hs.
        specialize (H1 st).
        destruct (count_list_body dm env st) as [c st']; simpl in *.
        rewrite Hc in Hs; subst c.
        rewrite H2, H1. now rewrite app_assoc.
Qed.

Lemma count_list_counts_from_empty dm env st :
  renderdoc_capture_counts st = [] ->
  renderdoc_capture_counts
    (snd (vkd3d_renderdoc_init_capture_count_list dm env st)) =
  renderdoc_capture_counts
    (snd (vkd3d_renderdoc_init_capture_count_list dm env initial_state)).
Proof.
  intros He. unfold vkd3d_renderdoc_init_capture_count_list, bind, ret.
  destruct (count_list_loop_appends (S (String.length env)) dm env) as [l H].
  pose proof (H st) as H1. pose proof (H initial_state) as H2.
  destruct (count_list_loop _ dm env st) as [b1 s1].
  destruct (count_list_loop _ dm env initial_state) as [b2 s2].
  simpl in *. rewrite H1, H2, He. reflexivity.
Qed.

Lemma count_list_frame dm env st :
  same_controller st (snd (vkd3d_renderdoc_init_capture_count_list dm env st)).
Proof.
  unfold vkd3d_renderdoc_init_capture_count_list, bind, ret.
  pose proof (count_list_loop_frame (S (String.length env)) dm env st) as H.
  destruct (count_list_loop _ dm env st) as [b s]. exact H.
Qed.

(** ** The state after initialisation *)

Lemma vkd3d_renderdoc_load_api_frame l st :
  let st' := snd (vkd3d_renderdoc_load_api l st) in
  renderdoc_capture_shader_hash st' = renderdoc_capture_shader_hash st /\
  renderdoc_capture_counts st' = renderdoc_capture_counts st /\
  vkd3d_renderdoc_is_active st' = vkd3d_renderdoc_is_active st /\
  overall_counter st' = overall_counter st.
Proof. destruct l as [| |[] api]; repeat split. Qed.

Lemma after_init_disabled h :
  VKD3D_AUTO_CAPTURE_SHADER h = None ->
  VKD3D_AUTO_CAPTURE_COUNTS h = None ->
  after_init h = with_log [WARN_not_enabled] (with_once true initial_state).
Proof.
  intros Hs Hc. unfold after_init, vkd3d_renderdoc_init, vkd3d_renderdoc_init_once.
  rewrite Hs, Hc. reflexivity.
Qed.

Lemma after_init_enabled h :
  is_some (VKD3D_AUTO_CAPTURE_SHADER h) || is_some (VKD3D_AUTO_CAPTURE_COUNTS h)
    = true ->
  vkd3d_renderdoc_is_active (after_init h) = true /\
  overall_counter (after_init h) = 0 /\
  renderdoc_capture_shader_hash (after_init h) = configured_hash h /\
  renderdoc_capture_counts (after_init h) = configured_counts h.
Proof.
  destruct h as [dm env counts l]. unfold configured_hash, configured_counts.
  unfold after_init, vkd3d_renderdoc_init, vkd3d_renderdoc_init_once. simpl.
  intros En.
  destruct env as [s|], counts as [c|]; try discriminate;
    cbv [bind gets modify ret emit when store_errno];
    cbn -[strtoull vkd3d_renderdoc_init_capture_count_list
          vkd3d_renderdoc_load_api];
    try (destruct (conv_errno (strtoull s 16));
         cbn -[strtoull vkd3d_renderdoc_init_capture_count_list
               vkd3d_renderdoc_load_api];
         destruct (negb (conv_value (strtoull s 16) =? 0)));
    cbn -[strtoull vkd3d_renderdoc_init_capture_count_list
          vkd3d_renderdoc_load_api];
    try match goal with
        | |- context [vkd3d_renderdoc_init_capture_count_list ?d ?c ?st] =>
            pose proof (count_list_frame d c st) as Hf;
            pose proof (count_list_counts_from_empty d c st eq_refl) as Hc;
            destruct (vkd3d_renderdoc_init_capture_count_list d c st)
              as [u st1];
            destruct Hf as (_ & Hf1 & _ & Hf2 & _)
        end;
    match goal with
    | |- context [vkd3d_renderdoc_load_api ?l ?st] =>
        destruct (vkd3d_renderdoc_load_api_frame l st) as (L1 & L2 & L3 & L4)
    end;
    simpl in *; rewrite L1, L2, L3, L4; repeat split; assumption.
Qed.

(** ** [vkd3d_renderdoc_begin_capture] *)

Lemma counts_contain_In counts counter :
  counts_contain counts counter = true <-> In counter counts.
Proof.
  induction counts as [|c rest IH]; simpl.
  - split; [discriminate|tauto].
  - destruct (c =? counter) eqn:E.
    + apply Z.eqb_eq in E. tauto.
    + apply Z.eqb_neq in E. rewrite IH. split; [tauto|].
      intros [H|H]; [contradiction|assumption].
Qed.

(** The value before the increment, recovered by the subtraction. *)
Lemma pre_increment v :
  to_uint32 (to_uint32 (v + 1) - 1) = to_uint32 v.
Proof.
  unfold to_uint32, UINT32_MOD.
  rewrite Zminus_mod_idemp_l. f_equal. lia.
Qed.

Lemma to_uint32_id v : is_uint32 v -> to_uint32 v = v.
Proof. unfold is_uint32, to_uint32. intros H. now apply Z.mod_small. Qed.

Lemma to_uint32_range v : is_uint32 (to_uint32 v).
Proof.
  unfold is_uint32, to_uint32, UINT32_MOD. apply Z.mod_pos_bound. lia.
Qed.

Lemma begin_capture_result instance st :
  fst (vkd3d_renderdoc_begin_capture instance st) =
  counts_contain (renderdoc_capture_counts st) (to_uint32 (overall_counter st)).
Proof.
  unfold vkd3d_renderdoc_begin_capture, vkd3d_atomic_uint32_increment,
    vkd3d_renderdoc_enable_submit_counter.
  run_M. rewrite pre_increment.
  destruct (counts_contain _ _); simpl; [|reflexivity].
  destruct (renderdoc_api st); reflexivity.
Qed.

Lemma begin_capture_state instance st :
  let st' := snd (vkd3d_renderdoc_begin_capture instance st) in
  overall_counter st' = to_uint32 (overall_counter st + 1) /\
  renderdoc_capture_counts st' = renderdoc_capture_counts st /\
  renderdoc_capture_shader_hash st' = renderdoc_capture_shader_hash st /\
  renderdoc_api st' = renderdoc_api st /\
  vkd3d_renderdoc_is_active st' = vkd3d_renderdoc_is_active st.
Proof.
  unfold vkd3d_renderdoc_begin_capture, vkd3d_atomic_uint32_increment,
    vkd3d_renderdoc_enable_submit_counter.
  run_M.
  destruct (counts_contain _ _); simpl; [|repeat split].
  destruct (renderdoc_api st) eqn:E; run_M; repeat split; assumption.
Qed.

Lemma begin_captures_cons i rest st :
  begin_captures (i :: rest) st =
  (fst (vkd3d_renderdoc_begin_capture i st)
     :: fst (begin_captures rest (snd (vkd3d_renderdoc_begin_capture i st))),
   snd (begin_captures rest (snd (vkd3d_renderdoc_begin_capture i st)))).
Proof.
  simpl. unfold bind, ret.
  destruct (vkd3d_renderdoc_begin_capture i st) as [b st1]; simpl.
  destruct (begin_captures rest st1) as [bs st2]; reflexivity.
Qed.

Lemma begin_captures_state instances : forall st,
  let st' := snd (begin_captures instances st) in
  to_uint32 (overall_counter st') =
    to_uint32 (overall_counter st + Z.of_nat (List.length instances)) /\
  renderdoc_capture_counts st' = renderdoc_capture_counts st /\
  renderdoc_capture_shader_hash st' = renderdoc_capture_shader_hash st /\
  renderdoc_api st' = renderdoc_api st /\
  vkd3d_renderdoc_is_active st' = vkd3d_renderdoc_is_active st.
Proof.
  induction instances as [|i rest IH]; intros st.
  - simpl. rewrite Z.add_0_r. repeat split.
  - rewrite begin_captures_cons. cbn [snd].
    destruct (begin_capture_state i st) as (B1 & B2 & B3 & B4 & B5).
    destruct (IH (snd (vkd3d_renderdoc_begin_capture i st)))
      as (I1 & I2 & I3 & I4 & I5).
    cbv zeta in *. rewrite I1, I2, I3, I4, I5, B1, B2, B3, B4, B5.
    repeat split.
    unfold to_uint32, UINT32_MOD. rewrite Zplus_mod_idemp_l.
    f_equal. cbn [List.length]. lia.
Qed.

(** Nothing is captured while the list is empty. *)
Lemma begin_captures_empty instances : forall st,
  renderdoc_capture_counts st = [] ->
  fst (begin_captures instances st) = repeat false (List.length instances).
Proof.
  induction instances as [|i rest IH]; intros st He; [reflexivity|].
  rewrite begin_captures_cons. cbn [fst List.length repeat].
  rewrite begin_capture_result, He. simpl. f_equal.
  apply IH. destruct (begin_capture_state i st) as (_ & B2 & _).
  cbv zeta in B2. congruence.
Qed.

(** The results of successive calls: call number [k], counted from 0, tests
    the counter value [k] calls after the current one. *)
Lemma begin_captures_results instances : forall st,
  fst (begin_captures instances st) =
  map (fun k => counts_contain (renderdoc_capture_counts st)
                  (to_uint32 (overall_counter st + Z.of_nat k)))
      (seq 0 (List.length instances)).
Proof.
  induction instances as [|i rest IH]; intros st; [reflexivity|].
  rewrite begin_captures_cons. cbn [fst List.length seq map].
  rewrite begin_capture_result, Z.add_0_r. f_equal.
  rewrite IH, <- seq_shift, map_map.
  destruct (begin_capture_state i st) as (B1 & B2 & _). cbv zeta in B1, B2.
  rewrite B1, B2. apply map_ext. intros k.
  f_equal. unfold to_uint32, UINT32_MOD.
  rewrite Zplus_mod_idemp_l. f_equal. lia.
Qed.

Lemma after_init_counter h : overall_counter (after_init h) = 0.
Proof.
  destruct (is_some (VKD3D_AUTO_CAPTURE_SHADER h)
            || is_some (VKD3D_AUTO_CAPTURE_COUNTS h)) eqn:E.
  - apply after_init_enabled. assumption.
  - apply orb_false_elim in E. destruct E as [E1 E2].
    rewrite after_init_disabled; [reflexivity| |].
    + destruct (VKD3D_AUTO_CAPTURE_SHADER h); [discriminate|reflexivity].
    + destruct (VKD3D_AUTO_CAPTURE_COUNTS h); [discriminate|reflexivity].
Qed.

Lemma begin_capture_counter_uint32 instance st :
  is_uint32 (overall_counter (snd (vkd3d_renderdoc_begin_capture instance st))).
Proof.
  destruct (begin_capture_state instance st) as (B1 & _). cbv zeta in B1.
  rewrite B1. apply to_uint32_range.
Qed.

Lemma begin_captures_counter_uint32 instances : forall st,
  is_uint32 (overall_counter st) ->
  is_uint32 (overall_counter (snd (begin_captures instances st))).
Proof.
  induction instances as [|i rest IH]; intros st H; [exact H|].
  rewrite begin_captures_cons. cbn [snd].
  apply IH, begin_capture_counter_uint32.
Qed.

Lemma after_init_counter_uint32 h instances :
  is_uint32 (overall_counter (snd (begin_captures instances (after_init h)))).
Proof.
  apply begin_captures_counter_uint32. rewrite after_init_counter.
  unfold is_uint32, UINT32_MOD. lia.
Qed.

(** The counter after [n] calls from the start. *)
Lemma after_init_counter_calls h instances :
  overall_counter (snd (begin_captures instances (after_init h))) =
  to_uint32 (Z.of_nat (List.length instances)).
Proof.
  rewrite <- (to_uint32_id _ (after_init_counter_uint32 h instances)).
  destruct (begin_captures_state instances (after_init h)) as (B1 & _).
  cbv zeta in B1. rewrite B1, after_init_counter. reflexivity.
Qed.

(** ** The counts parser on the strings of the specification *)

Example counts_hex_and_decimal dm :
  renderdoc_capture_counts
    (snd (vkd3d_renderdoc_init_capture_count_list dm "0x10,20" initial_state)) =
  [16; 20].
Proof. destruct dm; reflexivity. Qed.

Example counts_stop_at_range_error :
  renderdoc_capture_counts
    (snd (vkd3d_renderdoc_init_capture_count_list LLP64
            "1,2,99999999999,4" initial_state)) = [1; 2].
Proof. reflexivity. Qed.

Example counts_wide_value_truncated :
  renderdoc_capture_counts
    (snd (vkd3d_renderdoc_init_capture_count_list LP64
            "1,2,4294967296,4" initial_state)) = [1; 2; 0; 4].
Proof. reflexivity. Qed.

Example counts_trailing_character :
  snd (vkd3d_renderdoc_init_capture_count_list LP64 "7x,3" initial_state) =
  with_log [TRACE_submit 7; ERR_unexpected_character "x"]
    (with_counts [7] initial_state).
Proof. reflexivity. Qed.

(** ** The claims of the specification *)

(** C1 (the code departs from the claim).  For the counts spec ["1,x,3"]
    the parser stores 1, then converts ["x,3"]: [strtoul] performs no
    conversion, returns 0 and leaves [errno] at 0, so 0 is stored as well
    before the unexpected character ['x'] ends the loop.  The configured
    list is [1; 0], not [1]; the trailing 3 is dropped. *)
Theorem C1_counts_1_x_3 dm env l :
  let st := after_init (Host dm env (Some "1,x,3"%string) l) in
  renderdoc_capture_counts st = [1; 0] /\
  fst (vkd3d_renderdoc_begin_capture 0 st) = true.
Proof.
  cbv zeta.
  destruct (after_init_enabled (Host dm env (Some "1,x,3"%string) l))
    as (_ & Hc & _ & Hl).
  - simpl. apply orb_true_r.
  - assert (E : configured_counts (Host dm env (Some "1,x,3"%string) l) = [1; 0])
      by (destruct dm; reflexivity).
    rewrite E in Hl. split; [assumption|].
    rewrite begin_capture_result, Hl, Hc. reflexivity.
Qed.

(** What the parser logs on the way. *)
Example counts_1_x_3_log dm :
  log (snd (vkd3d_renderdoc_init_capture_count_list dm "1,x,3" initial_state)) =
  [TRACE_submit 1; TRACE_submit 0; ERR_unexpected_character "x"].
Proof. destruct dm; reflexivity. Qed.

(** C2, as stated, fails: with capture enabled by an empty counts spec the
    list is empty, the counter is 0, and the first call of
    [vkd3d_renderdoc_begin_capture] returns false. *)
Lemma C2_empty_counts_submission_0_not_captured :
  let st := after_init (Host LP64 None (Some ""%string) NoLibrary) in
  vkd3d_renderdoc_is_active st = true /\
  renderdoc_capture_counts st = [] /\
  overall_counter st = 0 /\
  fst (vkd3d_renderdoc_begin_capture 0 st) = false.
Proof. repeat split. Qed.

(** C2 (amended).  If capture is enabled and the configured list of
    submission indices is empty, as it is for a counts spec that is present
    but empty, [vkd3d_renderdoc_begin_capture] returns false for every call:
    no submission is captured, submission 0 included. *)
Theorem C2_empty_list_never_captures st instances :
  vkd3d_renderdoc_is_active st = true ->
  renderdoc_capture_counts st = [] ->
  fst (begin_captures instances st) = repeat false (List.length instances).
Proof. intros _ He. now apply begin_captures_empty. Qed.

Lemma C2_empty_list_never_captures_witness :
  fst (begin_captures [0; 0; 0]
         (after_init (Host LP64 None (Some ""%string) NoLibrary))) =
  [false; false; false].
Proof.
  apply (C2_empty_list_never_captures
           (after_init (Host LP64 None (Some ""%string) NoLibrary)) [0; 0; 0]);
    reflexivity.
Defined.

(** An empty counts spec gives the empty list on every host. *)
Lemma empty_counts_spec h :
  VKD3D_AUTO_CAPTURE_COUNTS h = Some ""%string ->
  vkd3d_renderdoc_is_active (after_init h) = true /\
  renderdoc_capture_counts (after_init h) = [].
Proof.
  intros E. destruct (after_init_enabled h) as (Ha & _ & _ & Hl).
  - rewrite E. apply orb_true_r.
  - split; [assumption|]. rewrite Hl. unfold configured_counts.
    rewrite E. reflexivity.
Qed.

(** C3.  After configuration with the counts spec ["0,2,5"], seven
    successive calls of [vkd3d_renderdoc_begin_capture] return true, false,
    true, false, false, true, false, whatever the hash spec, the width of
    [unsigned long], the RenderDoc library and the instances passed. *)
Theorem C3_counts_0_2_5 dm env l i0 i1 i2 i3 i4 i5 i6 :
  fst (begin_captures [i0; i1; i2; i3; i4; i5; i6]
         (after_init (Host dm env (Some "0,2,5"%string) l))) =
  [true; false; true; false; false; true; false].
Proof.
  rewrite begin_captures_results.
  destruct (after_init_enabled (Host dm env (Some "0,2,5"%string) l))
    as (_ & Hc & _ & Hl).
  - simpl. apply orb_true_r.
  - assert (E : configured_counts (Host dm env (Some "0,2,5"%string) l)
                = [0; 2; 5]) by (destruct dm; reflexivity).
    rewrite Hl, Hc, E. reflexivity.
Qed.

(** C4.  A call of [vkd3d_renderdoc_begin_capture] returns true if and only
    if the value the counter had before the increment is an element of the
    configured list, whether [renderdoc_api] is set or not. *)
Theorem C4_begin_capture_iff_member st api instance :
  is_uint32 (overall_counter st) ->
  fst (vkd3d_renderdoc_begin_capture instance (with_api api st)) = true <->
  In (overall_counter st) (renderdoc_capture_counts st).
Proof.
  intros H. rewrite begin_capture_result. simpl.
  rewrite (to_uint32_id _ H). apply counts_contain_In.
Qed.

Lemma C4_begin_capture_iff_member_witness :
  fst (vkd3d_renderdoc_begin_capture 7
         (with_api false (with_counter 5 (with_counts [0; 2; 5] initial_state))))
  = true.
Proof.
  apply (C4_begin_capture_iff_member
           (with_counter 5 (with_counts [0; 2; 5] initial_state)) false 7).
  - unfold is_uint32, UINT32_MOD. simpl. lia.
  - simpl. auto.
Defined.

(** C5.  With neither environment variable set, [vkd3d_renderdoc_active]
    returns false and [vkd3d_renderdoc_begin_capture] returns false for
    every call, whatever value the counter has. *)
Theorem C5_disabled_never_captures h instances counter instance :
  VKD3D_AUTO_CAPTURE_SHADER h = None ->
  VKD3D_AUTO_CAPTURE_COUNTS h = None ->
  fst (vkd3d_renderdoc_active (after_init h)) = false /\
  fst (begin_captures instances (after_init h)) =
    repeat false (List.length instances) /\
  fst (vkd3d_renderdoc_begin_capture instance
         (with_counter counter (after_init h))) = false.
Proof.
  intros Hs Hc. rewrite (after_init_disabled h Hs Hc).
  split; [reflexivity|]. split.
  - apply begin_captures_empty. reflexivity.
  - rewrite begin_capture_result. reflexivity.
Qed.

Lemma C5_disabled_never_captures_witness :
  fst (vkd3d_renderdoc_active (after_init (Host LLP64 None None (GetAPI true true))))
  = false /\
  fst (begin_captures [1; 2; 3; 4]
         (after_init (Host LLP64 None None (GetAPI true true)))) =
  [false; false; false; false].
Proof.
  destruct (C5_disabled_never_captures
              (Host LLP64 None None (GetAPI true true)) [1; 2; 3; 4] 0 0
              eq_refl eq_refl) as (Ha & Hb & _).
  split; [exact Ha|exact Hb].
Defined.

(** C6.  [vkd3d_renderdoc_should_capture_shader_hash] returns true if and
    only if the configured hash is zero or is the hash given, and it leaves
    the whole state as it was. *)
Theorem C6_should_capture_shader_hash st hash :
  (fst (vkd3d_renderdoc_should_capture_shader_hash hash st) = true <->
   renderdoc_capture_shader_hash st = 0 \/
   renderdoc_capture_shader_hash st = hash) /\
  snd (vkd3d_renderdoc_should_capture_shader_hash hash st) = st.
Proof.
  unfold vkd3d_renderdoc_should_capture_shader_hash. run_M.
  split; [|reflexivity].
  rewrite orb_true_iff, !Z.eqb_eq. tauto.
Qed.

(** Texts on which the base-16 conversion yields 0. *)
Example strtoull_empty : conv_value (strtoull "" 16) = 0.
Proof. reflexivity. Qed.

Example strtoull_not_a_number : strtoull "shader" 16 = Conversion 0 "shader" None.
Proof. reflexivity. Qed.

(** A text that starts with a character that is neither white space, a
    sign nor a hexadecimal digit is not converted. *)
Lemma strtoull_no_conversion c rest :
  isspace c = false -> c <> "-"%char -> c <> "+"%char ->
  digit_in_base 16 c = None ->
  strtoull (String c rest) 16 = Conversion 0 (String c rest) None.
Proof.
  intros Hsp Hm Hp Hd. unfold strtoull, strto_unsigned.
  cbn [skip_space]. rewrite Hsp.
  assert (Hs : take_sign (String c rest) = (false, String c rest)).
  { destruct c as [[] [] [] [] [] [] [] []]; try reflexivity; congruence. }
  rewrite Hs.
  assert (Ht : take_prefix 16 (String c rest) = (16, String c rest)).
  { destruct c as [[] [] [] [] [] [] [] []]; try reflexivity; discriminate. }
  rewrite Ht. cbn [peek]. rewrite Hd. reflexivity.
Qed.

(** C7.  If the hash spec is absent, empty, or a text on which the base-16
    conversion yields 0, the configured hash is zero and
    [vkd3d_renderdoc_should_capture_shader_hash] returns true for every
    hash. *)
Theorem C7_no_hash_matches_all h x :
  VKD3D_AUTO_CAPTURE_SHADER h = None \/
  VKD3D_AUTO_CAPTURE_SHADER h = Some ""%string \/
  (exists s, VKD3D_AUTO_CAPTURE_SHADER h = Some s /\
             conv_value (strtoull s 16) = 0) ->
  renderdoc_capture_shader_hash (after_init h) = 0 /\
  fst (vkd3d_renderdoc_should_capture_shader_hash x (after_init h)) = true.
Proof.
  intros H.
  assert (Hz : renderdoc_capture_shader_hash (after_init h) = 0).
  { destruct (is_some (VKD3D_AUTO_CAPTURE_SHADER h)
              || is_some (VKD3D_AUTO_CAPTURE_COUNTS h)) eqn:E.
    - destruct (after_init_enabled h E) as (_ & _ & Hh & _).
      rewrite Hh. unfold configured_hash.
      destruct H as [H|[H|(s & H & Hv)]]; rewrite H;
        [reflexivity|reflexivity|exact Hv].
    - apply orb_false_elim in E. destruct E as [E1 E2].
      rewrite after_init_disabled; [reflexivity| |].
      + destruct (VKD3D_AUTO_CAPTURE_SHADER h); [discriminate|reflexivity].
      + destruct (VKD3D_AUTO_CAPTURE_COUNTS h); [discriminate|reflexivity]. }
  split; [exact Hz|].
  unfold vkd3d_renderdoc_should_capture_shader_hash. run_M.
  rewrite Hz. apply orb_true_r.
Qed.

Lemma C7_no_hash_matches_all_witness :
  fst (vkd3d_renderdoc_should_capture_shader_hash 3735928559
         (after_init (Host LP64 (Some "shader"%string) (Some "3"%string)
                        NoLibrary))) = true.
Proof.
  apply (C7_no_hash_matches_all
           (Host LP64 (Some "shader"%string) (Some "3"%string) NoLibrary)
           3735928559).
  right. right. exists "shader"%string. split; reflexivity.
Defined.

(** C8.  If the counts spec is absent and the hash spec is present, the
    configured list is [0].  Counting the calls of
    [vkd3d_renderdoc_begin_capture] from 0, call number [k] observes the
    counter value [k mod 2^32] and returns true if that value is 0 and
    false otherwise; so of the first [2^32] calls the first one alone
    returns true.  Put by the state a call starts in: it returns true
    exactly when the counter it observes is 0. *)
Theorem C8_default_counts h s instances instance :
  VKD3D_AUTO_CAPTURE_COUNTS h = None ->
  VKD3D_AUTO_CAPTURE_SHADER h = Some s ->
  renderdoc_capture_counts (after_init h) = [0] /\
  fst (begin_captures instances (after_init h)) =
    map (fun k => to_uint32 (Z.of_nat k) =? 0)
        (seq 0 (List.length instances)) /\
  let st := snd (begin_captures instances (after_init h)) in
  overall_counter st = to_uint32 (Z.of_nat (List.length instances)) /\
  (fst (vkd3d_renderdoc_begin_capture instance st) = true <->
   overall_counter st = 0).
Proof.
  intros Hc Hs.
  destruct (after_init_enabled h) as (_ & Hz & _ & Hl).
  { rewrite Hs. reflexivity. }
  unfold configured_counts in Hl. rewrite Hc in Hl.
  split; [exact Hl|]. split; [|cbv zeta; split].
  - rewrite begin_captures_results, Hl, Hz. apply map_ext. intros k.
    rewrite Z.add_0_l. cbn [counts_contain]. rewrite Z.eqb_sym.
    destruct (to_uint32 (Z.of_nat k) =? 0); reflexivity.
  - apply after_init_counter_calls.
  - rewrite begin_capture_result.
    rewrite (to_uint32_id _ (after_init_counter_uint32 h instances)).
    destruct (begin_captures_state instances (after_init h)) as (_ & B2 & _).
    cbv zeta in B2. rewrite B2, Hl.
    rewrite counts_contain_In. simpl. intuition congruence.
Qed.

Lemma C8_default_counts_witness :
  renderdoc_capture_counts
    (after_init (Host LLP64 (Some "1234abcd"%string) None NoGetAPI)) = [0] /\
  fst (begin_captures [7; 8; 9]
         (after_init (Host LLP64 (Some "1234abcd"%string) None NoGetAPI))) =
  [true; false; false] /\
  fst (vkd3d_renderdoc_begin_capture 10
         (snd (begin_captures [7; 8; 9]
                 (after_init (Host LLP64 (Some "1234abcd"%string) None
                                NoGetAPI))))) <> true.
Proof.
  destruct (C8_default_counts
              (Host LLP64 (Some "1234abcd"%string) None NoGetAPI)
              "1234abcd"%string [7; 8; 9] 10 eq_refl eq_refl)
    as (H1 & H2 & H3 & H4).
  split; [exact H1|]. split; [rewrite H2; reflexivity|].
  intros Ht. apply H4 in Ht. rewrite H3 in Ht. discriminate Ht.
Defined.

(** C9, as stated, fails: the counter is a [uint32_t].  After [2^32 - 1]
    calls it holds [2^32 - 1], and the next call takes it back to 0, so the
    counter has decreased and call number [2^32 + 1] observes 0, not
    [2^32]. *)
Lemma C9_counter_wraps :
  let h := Host LP64 None (Some "0"%string) NoLibrary in
  let st := snd (begin_captures (repeat 0 (Z.to_nat (UINT32_MOD - 1)))
                   (after_init h)) in
  overall_counter st = UINT32_MOD - 1 /\
  overall_counter (snd (vkd3d_renderdoc_begin_capture 0 st)) = 0 /\
  fst (vkd3d_renderdoc_begin_capture 0
         (snd (vkd3d_renderdoc_begin_capture 0 st))) = true.
Proof.
  cbv zeta.
  set (h := Host LP64 None (Some "0"%string) NoLibrary).
  set (calls := repeat 0 (Z.to_nat (UINT32_MOD - 1))).
  assert (Hn : overall_counter (snd (begin_captures calls (after_init h)))
               = UINT32_MOD - 1).
  { rewrite after_init_counter_calls. unfold calls.
    rewrite repeat_length, Z2Nat.id by (unfold UINT32_MOD; lia).
    apply to_uint32_id. unfold is_uint32, UINT32_MOD. lia. }
  destruct (begin_capture_state 0 (snd (begin_captures calls (after_init h))))
    as (B1 & B2 & _).
  cbv zeta in B1, B2. rewrite Hn in B1.
  assert (Hz : to_uint32 (UINT32_MOD - 1 + 1) = 0) by reflexivity.
  rewrite Hz in B1.
  split; [exact Hn|]. split; [exact B1|].
  rewrite begin_capture_result, B1, B2.
  destruct (begin_captures_state calls (after_init h)) as (_ & C2 & _).
  cbv zeta in C2. rewrite C2.
  destruct (after_init_enabled h eq_refl) as (_ & _ & _ & Hl).
  rewrite Hl. reflexivity.
Qed.

(** C9 (amended).  Every call of [vkd3d_renderdoc_begin_capture] increments
    the counter by exactly one modulo [2^32], whether or not the index is in
    the list and whether or not [renderdoc_api] is set.  The counter starts
    at 0, and call number [n + 1] observes [n mod 2^32]: for the first
    [2^32] calls that is [n], and the counter grows by one at each call
    until it holds [2^32 - 1], where the next call takes it back to 0. *)
Theorem C9_counter_increments h instances instance :
  let st := snd (begin_captures instances (after_init h)) in
  let n := Z.of_nat (List.length instances) in
  (forall st0 i, overall_counter (snd (vkd3d_renderdoc_begin_capture i st0)) =
                 to_uint32 (overall_counter st0 + 1)) /\
  overall_counter (after_init h) = 0 /\
  overall_counter st = to_uint32 n /\
  (n < UINT32_MOD -> overall_counter st = n) /\
  (n < UINT32_MOD - 1 ->
   overall_counter (snd (vkd3d_renderdoc_begin_capture instance st)) =
   overall_counter st + 1).
Proof.
  cbv zeta. split; [|split; [|split; [|split]]].
  - intros st0 i. apply begin_capture_state.
  - apply after_init_counter.
  - apply after_init_counter_calls.
  - intros Hn. rewrite after_init_counter_calls. apply to_uint32_id.
    unfold is_uint32. lia.
  - intros Hn.
    destruct (begin_capture_state instance
                (snd (begin_captures instances (after_init h)))) as (B1 & _).
    cbv zeta in B1. rewrite B1, after_init_counter_calls.
    rewrite (to_uint32_id (Z.of_nat (List.length instances)))
      by (unfold is_uint32; lia).
    apply to_uint32_id. unfold is_uint32. lia.
Qed.

Lemma C9_counter_increments_witness :
  let h := Host LP64 None (Some "0,2,5"%string) (GetAPI true true) in
  overall_counter (snd (begin_captures [0; 0; 0] (after_init h))) = 3 /\
  overall_counter
    (snd (vkd3d_renderdoc_begin_capture 0
            (snd (begin_captures [0; 0; 0] (after_init h))))) = 4.
Proof.
  cbv zeta.
  destruct (C9_counter_increments
              (Host LP64 None (Some "0,2,5"%string) (GetAPI true true))
              [0; 0; 0] 0) as (_ & _ & _ & H1 & H2).
  split.
  - apply H1. unfold UINT32_MOD. simpl. lia.
  - rewrite H2, H1; [reflexivity| |]; unfold UINT32_MOD; simpl; lia.
Defined.



(** * Further properties of the code *)

(** ** Initialisation *)

Lemma vkd3d_renderdoc_load_api_result l st :
  renderdoc_api st = false ->
  renderdoc_api (snd (vkd3d_renderdoc_load_api l st)) = api_resolved l /\
  vkd3d_renderdoc_once (snd (vkd3d_renderdoc_load_api l st)) =
    vkd3d_renderdoc_once st /\
  renderdoc_calls (log (snd (vkd3d_renderdoc_load_api l st))) =
    renderdoc_calls (log st).
Proof.
  intros H. unfold renderdoc_calls.
  destruct l as [| |[] []]; simpl; rewrite ?filter_app, ?app_nil_r; auto.
Qed.

Lemma after_init_loader h :
  is_some (VKD3D_AUTO_CAPTURE_SHADER h) || is_some (VKD3D_AUTO_CAPTURE_COUNTS h)
    = true ->
  renderdoc_api (after_init h) = api_resolved (host_renderdoc h) /\
  vkd3d_renderdoc_once (after_init h) = true.
Proof.
  destruct h as [dm env counts l].
  unfold after_init, vkd3d_renderdoc_init, vkd3d_renderdoc_init_once. simpl.
  intros En.
  destruct env as [s|], counts as [c|]; try discriminate;
    cbv [bind gets modify ret emit when store_errno];
    cbn -[strtoull vkd3d_renderdoc_init_capture_count_list
          vkd3d_renderdoc_load_api];
    try (destruct (conv_errno (strtoull s 16));
         cbn -[strtoull vkd3d_renderdoc_init_capture_count_list
               vkd3d_renderdoc_load_api];
         destruct (negb (conv_value (strtoull s 16) =? 0)));
    cbn -[strtoull vkd3d_renderdoc_init_capture_count_list
          vkd3d_renderdoc_load_api];
    try match goal with
        | |- context [vkd3d_renderdoc_init_capture_count_list ?d ?c ?st] =>
            pose proof (count_list_frame d c st) as Hf;
            destruct (vkd3d_renderdoc_init_capture_count_list d c st)
              as [u st1];
            destruct Hf as (Hf1 & _ & _ & _ & Hf2)
        end;
    match goal with
    | |- context [vkd3d_renderdoc_load_api ?l ?st] =>
        let H := fresh in
        assert (H : renderdoc_api st = false)
          by (simpl in *; first [assumption | reflexivity]);
        destruct (vkd3d_renderdoc_load_api_result l st H) as (L1 & L2 & _)
    end;
    simpl in *; rewrite L1, L2; split; first [assumption | reflexivity].
Qed.

Lemma after_init_once h : vkd3d_renderdoc_once (after_init h) = true.
Proof.
  destruct (is_some (VKD3D_AUTO_CAPTURE_SHADER h)
            || is_some (VKD3D_AUTO_CAPTURE_COUNTS h)) eqn:E.
  - apply after_init_loader. assumption.
  - apply orb_false_elim in E. destruct E as [E1 E2].
    rewrite after_init_disabled; [reflexivity| |].
    + destruct (VKD3D_AUTO_CAPTURE_SHADER h); [discriminate|reflexivity].
    + destruct (VKD3D_AUTO_CAPTURE_COUNTS h); [discriminate|reflexivity].
Qed.

(** X1.  [vkd3d_renderdoc_init] runs the initialiser once: a later call,
    with whatever environment and RenderDoc library, returns with every
    static as the first call left it. *)
Theorem X1_init_runs_once h h' :
  vkd3d_renderdoc_init h' (after_init h) = (tt, after_init h).
Proof.
  unfold vkd3d_renderdoc_init at 1. unfold bind, gets.
  rewrite after_init_once. reflexivity.
Qed.

(** X2.  After initialisation [vkd3d_renderdoc_active] returns true exactly
    when one of the two environment variables is set, whether or not the
    RenderDoc library is found; [vkd3d_renderdoc_loaded_api] returns true
    exactly when, in addition, [RENDERDOC_GetAPI] was resolved and returned
    the API.  With neither variable set both return false, also when the
    library is resident and [RENDERDOC_GetAPI] would return the API. *)
Theorem X2_active_and_loaded h :
  let enabled := is_some (VKD3D_AUTO_CAPTURE_SHADER h)
                 || is_some (VKD3D_AUTO_CAPTURE_COUNTS h) in
  fst (vkd3d_renderdoc_active (after_init h)) = enabled /\
  fst (vkd3d_renderdoc_loaded_api (after_init h)) =
    enabled && api_resolved (host_renderdoc h).
Proof.
  cbv zeta. unfold vkd3d_renderdoc_active, vkd3d_renderdoc_loaded_api, gets.
  cbn [fst].
  destruct (is_some (VKD3D_AUTO_CAPTURE_SHADER h)
            || is_some (VKD3D_AUTO_CAPTURE_COUNTS h)) eqn:E.
  - destruct (after_init_enabled h E) as (Ha & _).
    destruct (after_init_loader h E) as (Hl & _).
    rewrite Ha, Hl. split; reflexivity.
  - apply orb_false_elim in E. destruct E as [E1 E2].
    rewrite after_init_disabled; [split; reflexivity| |].
    + destruct (VKD3D_AUTO_CAPTURE_SHADER h); [discriminate|reflexivity].
    + destruct (VKD3D_AUTO_CAPTURE_COUNTS h); [discriminate|reflexivity].
Qed.

(** ** The parser's effect on the statics and the log *)

Lemma count_list_body_effect dm env :
  exists l err,
    Forall is_uint32 l /\ at_most_one_error err /\
    (fst (count_list_body dm env initial_state) <> Break -> err = []) /\
    forall st,
      renderdoc_capture_counts (snd (count_list_body dm env st)) =
        (renderdoc_capture_counts st ++ l)%list /\
      log (snd (count_list_body dm env st)) =
        (log st ++ map TRACE_submit l ++ err)%list.
Proof.
  destruct (strto_unsigned_errno (ULONG_MAX dm) env 0) as [E|E];
    fold (strtoul dm env 0) in E.
  - set (v := to_uint32 (conv_value (strtoul dm env 0))).
    assert (Hv : Forall is_uint32 [v])
      by (constructor; [apply to_uint32_range|constructor]).
    destruct (is_comma (peek (conv_endp (strtoul dm env 0)))) eqn:Hc;
      [|destruct (is_nul (peek (conv_endp (strtoul dm env 0)))) eqn:Hz].
    + exists [v], []. split; [exact Hv|]. split; [now left|].
      split; [reflexivity|]. intros st.
      rewrite (count_list_body_converted dm env st E), Hc. simpl.
      rewrite ?app_nil_r. split; reflexivity.
    + exists [v], []. split; [exact Hv|]. split; [now left|].
      split; [reflexivity|]. intros st.
      rewrite (count_list_body_converted dm env st E), Hc, Hz. simpl.
      rewrite ?app_nil_r. split; reflexivity.
    + exists [v],
        [ERR_unexpected_character (peek (conv_endp (strtoul dm env 0)))].
      split; [exact Hv|]. split; [right; eexists; split; reflexivity|].
      split.
      { rewrite (count_list_body_converted dm env initial_state E), Hc, Hz.
        simpl. intros H. now elim H. }
      intros st.
      rewrite (count_list_body_converted dm env st E), Hc, Hz. simpl.
      rewrite <- ?app_assoc. split; reflexivity.
  - exists [], [ERR_parsing_auto_counts].
    split; [constructor|]. split; [right; eexists; split; reflexivity|].
    split.
    { rewrite (count_list_body_range dm env initial_state E).
      simpl. intros H. now elim H. }
    intros st. rewrite (count_list_body_range dm env st E). simpl.
    rewrite ?app_nil_r. split; reflexivity.
Qed.

Lemma count_list_loop_effect fuel : forall dm env,
  exists l err,
    Forall is_uint32 l /\ at_most_one_error err /\
    forall st,
      renderdoc_capture_counts (snd (count_list_loop fuel dm env st)) =
        (renderdoc_capture_counts st ++ l)%list /\
      log (snd (count_list_loop fuel dm env st)) =
        (log st ++ map TRACE_submit l ++ err)%list.
Proof.
  induction fuel as [|fuel IH]; intros dm env.
  - exists [], []. split; [constructor|]. split; [now left|].
    intros st. simpl. rewrite !app_nil_r. split; reflexivity.
  - cbn [count_list_loop]. destruct (is_nul (peek env)).
    + exists [], []. split; [constructor|]. split; [now left|].
      intros st. simpl. rewrite !app_nil_r. split; reflexivity.
    + destruct (count_list_body_effect dm env)
        as (l1 & err1 & F1 & A1 & N1 & H1).
      destruct (fst (count_list_body dm env initial_state)) as [|env'] eqn:Hc.
      * exists l1, err1. split; [exact F1|]. split; [exact A1|].
        intros st. unfold bind.
        pose proof (count_list_body_control dm env st initial_state) as Hs.
        specialize (H1 st).
        destruct (count_list_body dm env st) as [c st']; simpl in *.
        rewrite Hc in Hs; subst c. exact H1.
      * destruct (IH dm env') as (l2 & err2 & F2 & A2 & H2).
        rewrite N1 in H1 by discriminate.
        exists (l1 ++ l2)%list, err2.
        split; [apply Forall_app; split; assumption|].
        split; [exact A2|].
        intros st. unfold bind.
        pose proof (count_list_body_control dm env st initial_state) as Hs.
        destruct (H1 st) as [H1c H1l].
        destruct (count_list_body dm env st) as [c st']; simpl in *.
        rewrite Hc in Hs; subst c.
        destruct (H2 st') as [H2c H2l].
        rewrite H2c, H2l, H1c, H1l, map_app, app_nil_r, <- !app_assoc.
        split; reflexivity.
Qed.

(** X3.  Whatever the text, a run of
    [vkd3d_renderdoc_init_capture_count_list] keeps the elements the list
    already holds and appends to them, the same ones whatever the list
    held; each index it stores is a [uint32_t]
    value and is traced, in the order stored; it reports at most one error,
    after which nothing more is logged; and it leaves the API handle, the
    hash, the active flag and the submission counter alone. *)
Theorem X3_parser_effect dm env :
  exists l err,
    Forall is_uint32 l /\ at_most_one_error err /\
    forall st,
      let st' := snd (vkd3d_renderdoc_init_capture_count_list dm env st) in
      renderdoc_capture_counts st' = (renderdoc_capture_counts st ++ l)%list /\
      log st' = (log st ++ map TRACE_submit l ++ err)%list /\
      same_controller st st'.
Proof.
  destruct (count_list_loop_effect (S (String.length env)) dm env)
    as (l & err & F & A & H).
  exists l, err. split; [exact F|]. split; [exact A|]. intros st. cbv zeta.
  destruct (H st) as [Hc Hl].
  pose proof (count_list_frame dm env st) as Hf.
  unfold vkd3d_renderdoc_init_capture_count_list, bind, ret in *.
  destruct (count_list_loop _ dm env st) as [b s]. simpl in *.
  split; [exact Hc|]. split; [exact Hl|exact Hf].
Qed.

(** X4.  The loop of the parser is left after at most one turn more than
    the text has characters: with any larger bound the bound is not reached
    and the result is that of the parser. *)
Theorem X4_parser_terminates fuel dm env st :
  (String.length env < fuel)%nat ->
  count_list_loop fuel dm env st =
  (true, snd (vkd3d_renderdoc_init_capture_count_list dm env st)).
Proof.
  intros Hlt.
  pose proof (count_list_loop_terminates (S (String.length env)) dm env st
                (Nat.lt_succ_diag_r _)) as Ht.
  replace fuel with (S (String.length env) + (fuel - S (String.length env)))%nat
    by lia.
  rewrite (count_list_loop_more_fuel _ dm env st _ Ht).
  unfold vkd3d_renderdoc_init_capture_count_list, bind, ret.
  destruct (count_list_loop _ dm env st) as [b s]. simpl in *. now subst b.
Qed.

Lemma X4_parser_terminates_witness :
  count_list_loop 100 LP64 "1,2,3" initial_state =
  (true, snd (vkd3d_renderdoc_init_capture_count_list LP64 "1,2,3" initial_state)).
Proof.
  apply (X4_parser_terminates 100 LP64 "1,2,3" initial_state). simpl. lia.
Defined.

(** ** Sequences of calls *)

Lemma run_call_effect c st :
  vkd3d_renderdoc_once st = true ->
  let st' := snd (run_call c st) in
  vkd3d_renderdoc_once st' = true /\
  renderdoc_api st' = renderdoc_api st /\
  renderdoc_capture_shader_hash st' = renderdoc_capture_shader_hash st /\
  renderdoc_capture_counts st' = renderdoc_capture_counts st /\
  vkd3d_renderdoc_is_active st' = vkd3d_renderdoc_is_active st /\
  overall_counter st' =
    (if is_begin_capture c then to_uint32 (overall_counter st + 1)
     else overall_counter st) /\
  (renderdoc_api st = false ->
   renderdoc_calls (log st') = renderdoc_calls (log st)).
Proof.
  intros Ho.
  destruct c as [h| | |hash|instance|instance]; cbn [run_call is_begin_capture].
  - unfold vkd3d_renderdoc_init, bind, gets. rewrite Ho. simpl. tauto.
  - simpl. tauto.
  - simpl. tauto.
  - simpl. tauto.
  - unfold vkd3d_renderdoc_begin_capture, vkd3d_atomic_uint32_increment,
      vkd3d_renderdoc_enable_submit_counter.
    run_M. destruct (counts_contain _ _); simpl; [|tauto].
    destruct (renderdoc_api st) eqn:E; run_M;
      repeat split; try assumption; discriminate.
  - unfold vkd3d_renderdoc_end_capture. run_M.
    destruct (renderdoc_api st) eqn:E; run_M;
      repeat split; try assumption; discriminate.
Qed.

Lemma run_calls_cons c cs st :
  snd (run_calls (c :: cs) st) = snd (run_calls cs (snd (run_call c st))).
Proof.
  simpl. unfold bind. destruct (run_call c st) as [u st1]. reflexivity.
Qed.

Lemma run_calls_effect cs : forall st,
  vkd3d_renderdoc_once st = true ->
  is_uint32 (overall_counter st) ->
  let st' := snd (run_calls cs st) in
  renderdoc_api st' = renderdoc_api st /\
  renderdoc_capture_shader_hash st' = renderdoc_capture_shader_hash st /\
  renderdoc_capture_counts st' = renderdoc_capture_counts st /\
  vkd3d_renderdoc_is_active st' = vkd3d_renderdoc_is_active st /\
  overall_counter st' =
    to_uint32 (overall_counter st
               + Z.of_nat (List.length (filter is_begin_capture cs))) /\
  (renderdoc_api st = false ->
   renderdoc_calls (log st') = renderdoc_calls (log st)).
Proof.
  induction cs as [|c cs IH]; intros st Ho Hu; cbv zeta.
  - simpl. rewrite Z.add_0_r, (to_uint32_id _ Hu). tauto.
  - rewrite run_calls_cons.
    destruct (run_call_effect c st Ho) as (R0 & R1 & R2 & R3 & R4 & R5 & R6).
    cbv zeta in *.
    assert (Hu' : is_uint32 (overall_counter (snd (run_call c st)))).
    { rewrite R5. destruct (is_begin_capture c);
        [apply to_uint32_range|exact Hu]. }
    destruct (IH _ R0 Hu') as (I1 & I2 & I3 & I4 & I5 & I6). cbv zeta in *.
    rewrite I1, I2, I3, I4, I5, R1, R2, R3, R4, R5.
    repeat split.
    + cbn [filter]. destruct (is_begin_capture c); cbn [List.length].
      * unfold to_uint32, UINT32_MOD. rewrite Zplus_mod_idemp_l.
        f_equal. lia.
      * reflexivity.
    + intros Hn. rewrite I6 by congruence. auto.
Qed.

(** X5.  After initialisation, no sequence of calls of the public entry
    points changes the configuration: the hash, the list of indices, the
    active flag and the API handle stay what [vkd3d_renderdoc_init] made
    them (calls of [vkd3d_renderdoc_init] with another environment
    included), and the counter holds the number of calls of
    [vkd3d_renderdoc_begin_capture] so far, modulo [2^32]. *)
Theorem X5_calls_keep_configuration h cs :
  let st := snd (run_calls cs (after_init h)) in
  renderdoc_api st = renderdoc_api (after_init h) /\
  renderdoc_capture_shader_hash st =
    renderdoc_capture_shader_hash (after_init h) /\
  renderdoc_capture_counts st = renderdoc_capture_counts (after_init h) /\
  vkd3d_renderdoc_is_active st = vkd3d_renderdoc_is_active (after_init h) /\
  overall_counter st =
    to_uint32 (Z.of_nat (List.length (filter is_begin_capture cs))).
Proof.
  cbv zeta.
  destruct (run_calls_effect cs (after_init h) (after_init_once h))
    as (I1 & I2 & I3 & I4 & I5 & _).
  { rewrite after_init_counter. unfold is_uint32, UINT32_MOD. lia. }
  cbv zeta in *. rewrite after_init_counter in I5. tauto.
Qed.

(** ** Calls through the RenderDoc API *)

Lemma renderdoc_calls_app l1 l2 :
  renderdoc_calls (l1 ++ l2) = (renderdoc_calls l1 ++ renderdoc_calls l2)%list.
Proof. apply filter_app. Qed.

Lemma renderdoc_calls_traces l : renderdoc_calls (map TRACE_submit l) = [].
Proof. induction l as [|x l IH]; [reflexivity|exact IH]. Qed.

Lemma renderdoc_calls_parse_error err :
  at_most_one_error err -> renderdoc_calls err = [].
Proof.
  intros [->|(e & -> & He)]; [reflexivity|].
  destruct e; try discriminate; reflexivity.
Qed.

Lemma count_list_no_renderdoc_calls dm env st :
  renderdoc_calls
    (log (snd (vkd3d_renderdoc_init_capture_count_list dm env st))) =
  renderdoc_calls (log st).
Proof.
  destruct (count_list_loop_effect (S (String.length env)) dm env)
    as (l & err & _ & A & H).
  destruct (H st) as [_ Hl].
  unfold vkd3d_renderdoc_init_capture_count_list, bind, ret in *.
  destruct (count_list_loop _ dm env st) as [b s]. simpl in *.
  rewrite Hl, !renderdoc_calls_app, renderdoc_calls_traces,
    (renderdoc_calls_parse_error err A), !app_nil_r.
  reflexivity.
Qed.

Lemma after_init_no_renderdoc_calls h :
  renderdoc_calls (log (after_init h)) = [].
Proof.
  destruct h as [dm env counts l].
  unfold after_init, vkd3d_renderdoc_init, vkd3d_renderdoc_init_once. simpl.
  destruct env as [s|], counts as [c|];
    cbv [bind gets modify ret emit when store_errno];
    cbn -[strtoull vkd3d_renderdoc_init_capture_count_list
          vkd3d_renderdoc_load_api];
    try reflexivity;
    try (destruct (conv_errno (strtoull s 16));
         cbn -[strtoull vkd3d_renderdoc_init_capture_count_list
               vkd3d_renderdoc_load_api];
         destruct (negb (conv_value (strtoull s 16) =? 0)));
    cbn -[strtoull vkd3d_renderdoc_init_capture_count_list
          vkd3d_renderdoc_load_api];
    try match goal with
        | |- context [vkd3d_renderdoc_init_capture_count_list ?d ?c ?st] =>
            pose proof (count_list_frame d c st) as Hf;
            pose proof (count_list_no_renderdoc_calls d c st) as Hn;
            destruct (vkd3d_renderdoc_init_capture_count_list d c st)
              as [u st1];
            destruct Hf as (Hf1 & _)
        end;
    match goal with
    | |- context [vkd3d_renderdoc_load_api ?l ?st] =>
        let H := fresh in
        assert (H : renderdoc_api st = false)
          by (simpl in *; first [assumption | reflexivity]);
        destruct (vkd3d_renderdoc_load_api_result l st H) as (_ & _ & L3)
    end;
    simpl in *; rewrite L3; first [assumption | reflexivity].
Qed.

(** X6.  When [vkd3d_renderdoc_loaded_api] returns false after
    initialisation, no sequence of calls of the public entry points makes a
    call through [renderdoc_api]: [vkd3d_renderdoc_begin_capture] and
    [vkd3d_renderdoc_end_capture] forward nothing. *)
Theorem X6_no_api_no_renderdoc_call h cs :
  fst (vkd3d_renderdoc_loaded_api (after_init h)) = false ->
  renderdoc_calls (log (snd (run_calls cs (after_init h)))) = [].
Proof.
  unfold vkd3d_renderdoc_loaded_api, gets. cbn [fst]. intros Hn.
  destruct (run_calls_effect cs (after_init h) (after_init_once h))
    as (_ & _ & _ & _ & _ & I6).
  { rewrite after_init_counter. unfold is_uint32, UINT32_MOD. lia. }
  cbv zeta in I6. rewrite (I6 Hn). apply after_init_no_renderdoc_calls.
Qed.

Lemma X6_no_api_no_renderdoc_call_witness :
  renderdoc_calls
    (log (snd (run_calls [Call_begin_capture 7; Call_end_capture 7]
                 (after_init (Host LP64 None (Some "0"%string) NoLibrary)))))
  = [].
Proof.
  apply (X6_no_api_no_renderdoc_call
           (Host LP64 None (Some "0"%string) NoLibrary)
           [Call_begin_capture 7; Call_end_capture 7]).
  reflexivity.
Defined.

(** X7.  Successive calls of [vkd3d_renderdoc_begin_capture] add to the log
    one [StartFrameCapture] for each call that returned true, with that
    call's instance and in call order, when the API handle is set, and
    nothing when it is not. *)
Theorem X7_begin_capture_forwards instances : forall st,
  log (snd (begin_captures instances st)) =
  (log st ++
   (if renderdoc_api st
    then map StartFrameCapture
           (captured instances (fst (begin_captures instances st)))
    else []))%list.
Proof.
  induction instances as [|i rest IH]; intros st.
  - simpl. destruct (renderdoc_api st); now rewrite app_nil_r.
  - rewrite begin_captures_cons. cbn [fst snd captured].
    rewrite IH.
    destruct (begin_capture_state i st) as (_ & _ & _ & B4 & _).
    cbv zeta in B4. rewrite B4.
    assert (Hl : log (snd (vkd3d_renderdoc_begin_capture i st)) =
                 (log st ++
                  (if fst (vkd3d_renderdoc_begin_capture i st)
                      && renderdoc_api st
                   then [StartFrameCapture i] else []))%list).
    { unfold vkd3d_renderdoc_begin_capture, vkd3d_atomic_uint32_increment,
        vkd3d_renderdoc_enable_submit_counter.
      run_M. destruct (counts_contain _ _); simpl;
        [|now rewrite app_nil_r].
      destruct (renderdoc_api st) eqn:E; run_M; rewrite ?E;
        [reflexivity|now rewrite app_nil_r]. }
    rewrite Hl.
    destruct (fst (vkd3d_renderdoc_begin_capture i st)),
      (renderdoc_api st); cbn [andb map];
      rewrite <- ?app_assoc, ?app_nil_r; reflexivity.
Qed.

(** ** Ranges of the configured values *)

Lemma digit_in_base_nonneg base c d : digit_in_base base c = Some d -> 0 <= d.
Proof.
  unfold digit_in_base, digit_value.
  destruct ((48 <=? code c) && (code c <=? 57)) eqn:E1.
  - apply andb_prop in E1. destruct E1 as [E1 _]. apply Z.leb_le in E1.
    destruct (_ <? base); intros [= <-]. lia.
  - destruct ((97 <=? code c) && (code c <=? 122)) eqn:E2.
    + apply andb_prop in E2. destruct E2 as [E2 _]. apply Z.leb_le in E2.
      destruct (_ <? base); intros [= <-]. lia.
    + destruct ((65 <=? code c) && (code c <=? 90)) eqn:E3; [|discriminate].
      apply andb_prop in E3. destruct E3 as [E3 _]. apply Z.leb_le in E3.
      destruct (_ <? base); intros [= <-]. lia.
Qed.

Lemma scan_digits_nonneg base p : forall acc,
  0 <= base -> 0 <= acc -> 0 <= fst (scan_digits base acc p).
Proof.
  induction p as [|c r IH]; intros acc Hb Ha; simpl; [exact Ha|].
  destruct (digit_in_base base c) as [d|] eqn:E; simpl; [|exact Ha].
  apply IH; [exact Hb|]. apply digit_in_base_nonneg in E. nia.
Qed.

Lemma take_prefix_base base p : 0 <= base -> 0 <= fst (take_prefix base p).
Proof.
  intros Hb. unfold take_prefix.
  repeat match goal with
         | |- context [match ?x with _ => _ end] => destruct x
         end; simpl; lia.
Qed.

(** A conversion returns a value of the unsigned type. *)
Lemma strto_unsigned_range umax nptr base :
  0 <= umax -> 0 <= base ->
  0 <= conv_value (strto_unsigned umax nptr base) <= umax.
Proof.
  intros Hu Hb. unfold strto_unsigned.
  destruct (take_sign (skip_space nptr)) as [neg p1].
  pose proof (take_prefix_base base p1 Hb) as Hp.
  destruct (take_prefix base p1) as [b p2]; simpl in Hp.
  destruct (digit_in_base b (peek p2)); simpl; [|lia].
  pose proof (scan_digits_nonneg b p2 0 Hp (Z.le_refl 0)) as Hs.
  destruct (scan_digits b 0 p2) as [v rest]; simpl in Hs.
  destruct (v >? umax) eqn:Hv; simpl; [lia|].
  assert (v <= umax) by (destruct (Z.gtb_spec v umax); [discriminate|lia]).
  destruct neg; [|lia].
  pose proof (Z.mod_pos_bound (- v) (umax + 1)). lia.
Qed.

(** X8.  In every state the public entry points can reach after
    initialisation, each configured index is a [uint32_t] value, the
    configured hash is a [uint64_t] value and the counter is a [uint32_t]
    value. *)
Theorem X8_values_in_range h cs :
  let st := snd (run_calls cs (after_init h)) in
  Forall is_uint32 (renderdoc_capture_counts st) /\
  0 <= renderdoc_capture_shader_hash st < 2 ^ 64 /\
  is_uint32 (overall_counter st).
Proof.
  cbv zeta.
  destruct (run_calls_effect cs (after_init h) (after_init_once h))
    as (_ & I2 & I3 & _ & I5 & _).
  { rewrite after_init_counter. unfold is_uint32, UINT32_MOD. lia. }
  cbv zeta in *. rewrite I2, I3, I5.
  split; [|split; [|apply to_uint32_range]].
  - destruct (is_some (VKD3D_AUTO_CAPTURE_SHADER h)
              || is_some (VKD3D_AUTO_CAPTURE_COUNTS h)) eqn:E.
    + destruct (after_init_enabled h E) as (_ & _ & _ & Hl). rewrite Hl.
      unfold configured_counts.
      destruct (VKD3D_AUTO_CAPTURE_COUNTS h) as [c|].
      * destruct (count_list_loop_effect (S (String.length c))
                    (host_data_model h) c) as (l & err & F & _ & H).
        destruct (H initial_state) as [Hc _].
        unfold vkd3d_renderdoc_init_capture_count_list, bind, ret.
        destruct (count_list_loop _ _ c initial_state) as [b s].
        simpl in *. rewrite Hc. exact F.
      * constructor; [unfold is_uint32, UINT32_MOD; lia|constructor].
    + apply orb_false_elim in E. destruct E as [E1 E2].
      rewrite after_init_disabled; [constructor| |].
      * destruct (VKD3D_AUTO_CAPTURE_SHADER h); [discriminate|reflexivity].
      * destruct (VKD3D_AUTO_CAPTURE_COUNTS h); [discriminate|reflexivity].
  - destruct (is_some (VKD3D_AUTO_CAPTURE_SHADER h)
              || is_some (VKD3D_AUTO_CAPTURE_COUNTS h)) eqn:E.
    + destruct (after_init_enabled h E) as (_ & _ & Hh & _). rewrite Hh.
      unfold configured_hash.
      destruct (VKD3D_AUTO_CAPTURE_SHADER h) as [s|]; [|lia].
      pose proof (strto_unsigned_range ULLONG_MAX s 16) as R.
      fold (strtoull s 16) in R. unfold ULLONG_MAX in R. lia.
    + apply orb_false_elim in E. destruct E as [E1 E2].
      rewrite after_init_disabled; [simpl; lia| |].
      * destruct (VKD3D_AUTO_CAPTURE_SHADER h); [discriminate|reflexivity].
      * destruct (VKD3D_AUTO_CAPTURE_COUNTS h); [discriminate|reflexivity].
Qed.

(** ** Which submissions are captured *)

(** X9.  Counting the calls of [vkd3d_renderdoc_begin_capture] from 0, call
    number [k] of the first [2^32] returns true if and only if [k] is an
    element of the configured list. *)
Theorem X9_call_k_captured h instances k :
  (k < List.length instances)%nat ->
  Z.of_nat k < UINT32_MOD ->
  nth k (fst (begin_captures instances (after_init h))) false = true <->
  In (Z.of_nat k) (renderdoc_capture_counts (after_init h)).
Proof.
  intros Hk Hu. rewrite begin_captures_results, after_init_counter.
  rewrite <- counts_contain_In.
  set (f := fun k0 => counts_contain (renderdoc_capture_counts (after_init h))
                        (to_uint32 (0 + Z.of_nat k0))).
  rewrite (nth_indep _ false (f 0%nat))
    by (rewrite length_map, length_seq; exact Hk).
  rewrite map_nth, seq_nth by exact Hk.
  unfold f. rewrite Z.add_0_l, to_uint32_id; [reflexivity|].
  unfold is_uint32. lia.
Qed.

Lemma X9_call_k_captured_witness :
  nth 2 (fst (begin_captures [0; 0; 0; 0]
                (after_init (Host LP64 None (Some "0,2,5"%string) NoLibrary))))
      false = true.
Proof.
  apply (X9_call_k_captured
           (Host LP64 None (Some "0,2,5"%string) NoLibrary) [0; 0; 0; 0] 2).
  - simpl. lia.
  - unfold UINT32_MOD. simpl. lia.
  - simpl. auto.
Defined.

(** ** Reading back the text of a number *)

Lemma scan_digits_stop base acc p :
  digit_in_base base (peek p) = None -> scan_digits base acc p = (acc, p).
Proof.
  destruct p as [|c r]; simpl; [reflexivity|]. now intros ->.
Qed.

Lemma scan_digits_decimal_acc d : forall acc rest,
  digit_in_base 10 (peek rest) = None ->
  scan_digits 10 (Zpos acc)
    (String.append (DecimalString.NilEmpty.string_of_uint d) rest) =
  (Zpos (Pos.of_uint_acc d acc), rest).
Proof.
  induction d; intros acc rest Hr;
    cbn [DecimalString.NilEmpty.string_of_uint String.append Pos.of_uint_acc];
    try (apply scan_digits_stop; exact Hr);
    cbn [scan_digits];
    match goal with
    | |- context [digit_in_base 10 ?c] =>
        let v := eval vm_compute in (digit_in_base 10 c) in
        change (digit_in_base 10 c) with v
    end;
    cbv iota beta;
    match goal with
    | |- scan_digits 10 ?a _ = (Zpos (Pos.of_uint_acc _ ?p), _) =>
        replace a with (Zpos p) by lia
    end;
    apply IHd; exact Hr.
Qed.

Lemma scan_digits_decimal d rest :
  digit_in_base 10 (peek rest) = None ->
  scan_digits 10 0
    (String.append (DecimalString.NilEmpty.string_of_uint d) rest) =
  (Z.of_N (Pos.of_uint d), rest).
Proof.
  intros Hr. induction d;
    cbn [DecimalString.NilEmpty.string_of_uint String.append Pos.of_uint];
    try (apply scan_digits_stop; exact Hr);
    cbn [scan_digits];
    match goal with
    | |- context [digit_in_base 10 ?c] =>
        let v := eval vm_compute in (digit_in_base 10 c) in
        change (digit_in_base 10 c) with v
    end;
    cbv iota beta; cbn [Z.mul Z.add Z.of_N];
    first [exact IHd | apply scan_digits_decimal_acc; exact Hr].
Qed.

Lemma nzhead_not_D0 u u' : Decimal.nzhead u <> Decimal.D0 u'.
Proof. induction u; simpl; try discriminate. exact IHu. Qed.

(** The decimal text of a positive number starts with a digit from 1 to
    9. *)
Lemma to_uint_head p :
  match Pos.to_uint p with
  | Decimal.Nil | Decimal.D0 _ => False
  | _ => True
  end.
Proof.
  pose proof (DecimalPos.Unsigned.to_of (Pos.to_uint p)) as H.
  rewrite DecimalPos.Unsigned.of_to in H. cbn [N.to_uint] in H.
  pose proof (DecimalPos.Unsigned.to_uint_nonzero p) as Hz.
  destruct (Pos.to_uint p) as [|u|u|u|u|u|u|u|u|u|u]; try exact I.
  - apply Hz. exact H.
  - unfold Decimal.unorm in H. cbn [Decimal.nzhead] in H.
    destruct (Decimal.nzhead u) eqn:E; try discriminate.
    + apply Hz. exact H.
    + symmetry in H. injection H as H. subst.
      exact (nzhead_not_D0 _ _ E).
Qed.

Lemma scan_digits_hexadecimal_acc d : forall acc rest,
  digit_in_base 16 (peek rest) = None ->
  scan_digits 16 (Zpos acc)
    (String.append (HexadecimalString.NilEmpty.string_of_uint d) rest) =
  (Zpos (Pos.of_hex_uint_acc d acc), rest).
Proof.
  induction d; intros acc rest Hr;
    cbn [HexadecimalString.NilEmpty.string_of_uint String.append
         Pos.of_hex_uint_acc];
    try (apply scan_digits_stop; exact Hr);
    cbn [scan_digits];
    match goal with
    | |- context [digit_in_base 16 ?c] =>
        let v := eval vm_compute in (digit_in_base 16 c) in
        change (digit_in_base 16 c) with v
    end;
    cbv iota beta;
    match goal with
    | |- scan_digits 16 ?a _ = (Zpos (Pos.of_hex_uint_acc _ ?p), _) =>
        replace a with (Zpos p) by lia
    end;
    apply IHd; exact Hr.
Qed.

Lemma scan_digits_hexadecimal d rest :
  digit_in_base 16 (peek rest) = None ->
  scan_digits 16 0
    (String.append (HexadecimalString.NilEmpty.string_of_uint d) rest) =
  (Z.of_N (Pos.of_hex_uint d), rest).
Proof.
  intros Hr. induction d;
    cbn [HexadecimalString.NilEmpty.string_of_uint String.append
         Pos.of_hex_uint];
    try (apply scan_digits_stop; exact Hr);
    cbn [scan_digits];
    match goal with
    | |- context [digit_in_base 16 ?c] =>
        let v := eval vm_compute in (digit_in_base 16 c) in
        change (digit_in_base 16 c) with v
    end;
    cbv iota beta; cbn [Z.mul Z.add Z.of_N];
    first [exact IHd | apply scan_digits_hexadecimal_acc; exact Hr].
Qed.

Lemma scan_decimal n rest :
  digit_in_base 10 (peek rest) = None ->
  scan_digits 10 0 (String.append (decimal n) rest) = (Z.of_N n, rest).
Proof.
  intros Hr. unfold decimal. rewrite (scan_digits_decimal _ rest Hr).
  change (Pos.of_uint (N.to_uint n)) with (N.of_uint (N.to_uint n)).
  now rewrite DecimalN.Unsigned.of_to.
Qed.

Lemma scan_hexadecimal n rest :
  digit_in_base 16 (peek rest) = None ->
  scan_digits 16 0 (String.append (hexadecimal n) rest) = (Z.of_N n, rest).
Proof.
  intros Hr. unfold hexadecimal. rewrite (scan_digits_hexadecimal _ rest Hr).
  change (Pos.of_hex_uint (N.to_hex_uint n))
    with (N.of_hex_uint (N.to_hex_uint n)).
  now rewrite HexadecimalN.Unsigned.of_to.
Qed.

(** The conversion, once the sign and the prefix are known. *)
Lemma strto_unsigned_converts umax nptr base p1 b p2 d :
  take_sign (skip_space nptr) = (false, p1) ->
  take_prefix base p1 = (b, p2) ->
  digit_in_base b (peek p2) = Some d ->
  strto_unsigned umax nptr base =
  if fst (scan_digits b 0 p2) >? umax
  then Conversion umax (snd (scan_digits b 0 p2)) (Some ERANGE)
  else Conversion (fst (scan_digits b 0 p2)) (snd (scan_digits b 0 p2)) None.
Proof.
  intros Hs Hp Hd. unfold strto_unsigned. rewrite Hs, Hp, Hd.
  destruct (scan_digits b 0 p2) as [v rest]. reflexivity.
Qed.

(** After a token comes a comma or the end of the text. *)
Lemma token_end_no_digit rest base :
  is_comma (peek rest) || is_nul (peek rest) = true ->
  digit_in_base base (peek rest) = None /\ is_x (peek rest) = false.
Proof.
  destruct (peek rest) as [[] [] [] [] [] [] [] []];
    try discriminate; intros _; split; reflexivity.
Qed.

Lemma to_hex_uint_nonnil n : N.to_hex_uint n <> Hexadecimal.Nil.
Proof.
  destruct n; [discriminate|]. apply HexadecimalPos.Unsigned.to_uint_nonnil.
Qed.

(** A conversion, base 0, on the text of a token: the value of the token
    and the rest of the text, or the range error. *)
Lemma strto_unsigned_token umax t rest :
  is_comma (peek rest) || is_nul (peek rest) = true ->
  strto_unsigned umax (String.append (token_text t) rest) 0 =
  if Z.of_N (token_value t) >? umax
  then Conversion umax rest (Some ERANGE)
  else Conversion (Z.of_N (token_value t)) rest None.
Proof.
  intros He.
  destruct t as [n|n]; cbn [token_value token_text] in *.
  - destruct n as [|p].
    + change (decimal 0) with "0"%string. cbn [String.append].
      destruct (token_end_no_digit rest 8 He) as [Hd Hx].
      assert (Hs : scan_digits 8 0 (String "0" rest) = (0, rest)).
      { cbn [scan_digits]. change (digit_in_base 8 "0") with (Some 0).
        cbv iota beta. cbn [Z.mul Z.add].
        apply (scan_digits_stop 8 0 rest Hd). }
      erewrite strto_unsigned_converts with (b := 8) (p2 := String "0" rest).
      * rewrite Hs. reflexivity.
      * reflexivity.
      * destruct rest as [|x [|h r]]; try reflexivity.
        cbn [peek] in Hx. cbn [take_prefix]. simpl. rewrite Hx. reflexivity.
      * reflexivity.
    + destruct (token_end_no_digit rest 10 He) as [Hd _].
      pose proof (scan_decimal (Npos p) rest Hd) as Hs.
      pose proof (to_uint_head p) as Hh.
      unfold decimal in *. cbn [N.to_uint] in *.
      destruct (Pos.to_uint p) as [|u|u|u|u|u|u|u|u|u|u]; try contradiction;
        cbn [DecimalString.NilEmpty.string_of_uint String.append] in *;
        (erewrite strto_unsigned_converts with (b := 10);
         [rewrite Hs; reflexivity|reflexivity|reflexivity|reflexivity]).
  - destruct (token_end_no_digit rest 16 He) as [Hd _].
    pose proof (scan_hexadecimal n rest Hd) as Hs.
    pose proof (to_hex_uint_nonnil n) as Hn.
    unfold hexadecimal in *.
    destruct (N.to_hex_uint n); try contradiction;
      cbn [HexadecimalString.NilEmpty.string_of_uint String.append] in *;
      (erewrite strto_unsigned_converts with (b := 16);
       [rewrite Hs; reflexivity|reflexivity|reflexivity|reflexivity]).
Qed.

Lemma strtoul_token dm t rest :
  is_comma (peek rest) || is_nul (peek rest) = true ->
  Z.of_N (token_value t) <= ULONG_MAX dm ->
  strtoul dm (String.append (token_text t) rest) 0 =
  Conversion (Z.of_N (token_value t)) rest None.
Proof.
  intros He Hv. unfold strtoul. rewrite (strto_unsigned_token _ t rest He).
  destruct (Z.gtb_spec (Z.of_N (token_value t)) (ULONG_MAX dm));
    [lia|reflexivity].
Qed.

Lemma token_text_starts t rest :
  is_nul (peek (String.append (token_text t) rest)) = false.
Proof.
  destruct t as [[|p]|n]; try reflexivity.
  cbn [token_text]. unfold decimal. cbn [N.to_uint].
  pose proof (to_uint_head p) as Hh.
  destruct (Pos.to_uint p); try contradiction; reflexivity.
Qed.

Lemma string_append_empty s : String.append s EmptyString = s.
Proof. induction s as [|c s IH]; simpl; [reflexivity|now rewrite IH]. Qed.

Lemma string_append_length s1 s2 :
  String.length (String.append s1 s2) =
  (String.length s1 + String.length s2)%nat.
Proof. induction s1 as [|c s IH]; simpl; [reflexivity|now rewrite IH]. Qed.

(** One turn of the loop on a token that is a [uint32_t] value. *)
Lemma count_list_body_token dm t rest st :
  is_comma (peek rest) || is_nul (peek rest) = true ->
  (token_value t < 2 ^ 32)%N ->
  count_list_body dm (String.append (token_text t) rest) st =
  (Continue (if is_comma (peek rest) then next rest else rest),
   turn_stored (Z.of_N (token_value t)) st).
Proof.
  intros He Hv.
  assert (Hu : is_uint32 (Z.of_N (token_value t)))
    by (unfold is_uint32, UINT32_MOD; lia).
  assert (Hm : Z.of_N (token_value t) <= ULONG_MAX dm)
    by (destruct dm; unfold ULONG_MAX; lia).
  pose proof (strtoul_token dm t rest He Hm) as Hs.
  assert (E : conv_errno (strtoul dm (String.append (token_text t) rest) 0)
              = None) by now rewrite Hs.
  rewrite (count_list_body_converted dm _ st E), Hs.
  cbn [conv_value conv_endp]. rewrite (to_uint32_id _ Hu).
  destruct (is_comma (peek rest)); [reflexivity|].
  simpl in He. rewrite He. reflexivity.
Qed.

(** The statics after the tokens have been stored. *)
Lemma stored_tokens l : forall st,
  renderdoc_capture_counts
    (fold_left (fun s t => turn_stored (Z.of_N (token_value t)) s) l st) =
    (renderdoc_capture_counts st
       ++ map (fun t => Z.of_N (token_value t)) l)%list /\
  log (fold_left (fun s t => turn_stored (Z.of_N (token_value t)) s) l st) =
    (log st ++ map (fun t => TRACE_submit (Z.of_N (token_value t))) l)%list.
Proof.
  induction l as [|t l IH]; intros st; simpl.
  - now rewrite !app_nil_r.
  - destruct (IH (turn_stored (Z.of_N (token_value t)) st)) as [Hc Hl].
    rewrite Hc, Hl. simpl. rewrite <- !app_assoc. split; reflexivity.
Qed.

Lemma count_list_loop_tokens dm l : forall fuel st,
  Forall (fun t => (token_value t < 2 ^ 32)%N) l ->
  (String.length (counts_text l) < fuel)%nat ->
  count_list_loop fuel dm (counts_text l) st =
  (true, fold_left (fun s t => turn_stored (Z.of_N (token_value t)) s) l st).
Proof.
  induction l as [|t rest IH]; intros fuel st Hv Hf.
  - destruct fuel; [lia|]. reflexivity.
  - inversion Hv as [|t' rest' Ht Hrest]; subst.
    destruct fuel as [|fuel]; [lia|].
    cbn [counts_text fold_left] in *.
    destruct rest as [|t2 rest2].
    + rewrite <- (string_append_empty (token_text t)) in *.
      cbn [count_list_loop]. rewrite token_text_starts. unfold bind.
      rewrite (count_list_body_token dm t EmptyString st eq_refl Ht).
      cbn [peek is_comma]. change (is_comma NUL) with false. cbv iota.
      destruct fuel as [|fuel].
      * pose proof (token_text_starts t EmptyString) as Hn.
        destruct (String.append (token_text t) EmptyString);
          [discriminate|simpl in Hf; lia].
      * reflexivity.
    + set (tail := counts_text (t2 :: rest2)) in *.
      cbn [count_list_loop]. rewrite token_text_starts. unfold bind.
      rewrite (count_list_body_token dm t (String "," tail) st eq_refl Ht).
      cbn [peek next]. change (is_comma ","%char) with true. cbv iota.
      apply IH; [exact Hrest|].
      rewrite string_append_length in Hf. simpl in Hf. lia.
Qed.

(** X10.  A counts spec written as numbers below [2^32], each in decimal
    or as [0x] and hexadecimal digits, with commas between them, is read
    back as exactly these numbers, in the order written and with
    repetitions kept; each is traced and no error is logged. *)
Theorem X10_counts_text_read_back dm l st :
  Forall (fun t => (token_value t < 2 ^ 32)%N) l ->
  let st' := snd (vkd3d_renderdoc_init_capture_count_list dm (counts_text l) st) in
  renderdoc_capture_counts st' =
    (renderdoc_capture_counts st
       ++ map (fun t => Z.of_N (token_value t)) l)%list /\
  log st' =
    (log st ++ map (fun t => TRACE_submit (Z.of_N (token_value t))) l)%list.
Proof.
  intros Hv. cbv zeta.
  unfold vkd3d_renderdoc_init_capture_count_list, bind, ret.
  rewrite (count_list_loop_tokens dm l _ st Hv (Nat.lt_succ_diag_r _)).
  cbn [snd]. apply stored_tokens.
Qed.

Lemma X10_counts_text_read_back_witness :
  renderdoc_capture_counts
    (snd (vkd3d_renderdoc_init_capture_count_list LLP64
            (counts_text [Hex 16; Dec 20; Dec 0; Dec 20]) initial_state)) =
  [16; 20; 0; 20].
Proof.
  apply (X10_counts_text_read_back LLP64 [Hex 16; Dec 20; Dec 0; Dec 20]
           initial_state).
  repeat constructor.
Defined.

(** ** The hash spec *)

Lemma take_prefix_hexadecimal d :
  take_prefix 16 (HexadecimalString.NilEmpty.string_of_uint d) =
  (16, HexadecimalString.NilEmpty.string_of_uint d).
Proof.
  destruct d as [|u|u|u|u|u|u|u|u|u|u|u|u|u|u|u|u]; try reflexivity.
  cbn [HexadecimalString.NilEmpty.string_of_uint].
  destruct u; try reflexivity;
    cbn [HexadecimalString.NilEmpty.string_of_uint];
    destruct (HexadecimalString.NilEmpty.string_of_uint _); reflexivity.
Qed.

(** [strtoull], base 16, on hexadecimal digits that make a [uint64_t]
    value. *)
Lemma strtoull_hex_digits d :
  d <> Hexadecimal.Nil ->
  (N.of_hex_uint d < 2 ^ 64)%N ->
  strtoull (HexadecimalString.NilEmpty.string_of_uint d) 16 =
  Conversion (Z.of_N (N.of_hex_uint d)) EmptyString None.
Proof.
  intros Hn Hv. unfold strtoull.
  pose proof (scan_digits_hexadecimal d EmptyString eq_refl) as Hs.
  rewrite string_append_empty in Hs.
  change (Pos.of_hex_uint d) with (N.of_hex_uint d) in Hs.
  pose proof (take_prefix_hexadecimal d) as Hp.
  assert (Hm : Z.of_N (N.of_hex_uint d) <= ULLONG_MAX)
    by (unfold ULLONG_MAX; lia).
  remember (N.of_hex_uint d) as v eqn:Ev. clear Ev Hv.
  destruct d; try contradiction;
    (erewrite strto_unsigned_converts with (b := 16);
     [rewrite Hs; cbn [fst snd];
      destruct (Z.gtb_spec (Z.of_N v) ULLONG_MAX);
      [lia|reflexivity]
     |reflexivity
     |exact Hp
     |reflexivity]).
Qed.

(** X11.  A hash spec made of hexadecimal digits (lower case, leading
    zeros allowed, as the shader hashes are printed with [%016 PRIx64])
    whose value fits 64 bits configures that value: after initialisation
    [vkd3d_renderdoc_should_capture_shader_hash] returns true for this hash
    and, unless the value is zero, for no other. *)
Theorem X11_hash_text_read_back h d x :
  d <> Hexadecimal.Nil ->
  (N.of_hex_uint d < 2 ^ 64)%N ->
  VKD3D_AUTO_CAPTURE_SHADER h =
    Some (HexadecimalString.NilEmpty.string_of_uint d) ->
  renderdoc_capture_shader_hash (after_init h) = Z.of_N (N.of_hex_uint d) /\
  (fst (vkd3d_renderdoc_should_capture_shader_hash x (after_init h)) = true
   <-> x = Z.of_N (N.of_hex_uint d) \/ N.of_hex_uint d = 0%N).
Proof.
  intros Hn Hv Hs.
  destruct (after_init_enabled h) as (_ & _ & Hh & _).
  { rewrite Hs. reflexivity. }
  unfold configured_hash in Hh.
  rewrite Hs, (strtoull_hex_digits d Hn Hv) in Hh. cbn [conv_value] in Hh.
  split; [exact Hh|].
  unfold vkd3d_renderdoc_should_capture_shader_hash. run_M.
  rewrite Hh, orb_true_iff, !Z.eqb_eq. lia.
Qed.

Lemma X11_hash_text_read_back_witness :
  renderdoc_capture_shader_hash
    (after_init (Host LP64 (Some "00000000deadbeef"%string) None NoLibrary)) =
  3735928559.
Proof.
  apply (X11_hash_text_read_back
           (Host LP64 (Some "00000000deadbeef"%string) None NoLibrary)
           (Hexadecimal.D0 (Hexadecimal.D0 (Hexadecimal.D0 (Hexadecimal.D0
            (Hexadecimal.D0 (Hexadecimal.D0 (Hexadecimal.D0 (Hexadecimal.D0
            (Hexadecimal.Dd (Hexadecimal.De (Hexadecimal.Da (Hexadecimal.Dd
            (Hexadecimal.Db (Hexadecimal.De (Hexadecimal.De (Hexadecimal.Df
             Hexadecimal.Nil))))))))))))))))
           0).
  - discriminate.
  - reflexivity.
  - reflexivity.
Defined.

(** X12.  With a counts spec written as in X10, call number [k] of the
    first [2^32] calls of [vkd3d_renderdoc_begin_capture] returns true if
    and only if [k] is one of the numbers written. *)
Theorem X12_spec_decides_captures h l instances k :
  Forall (fun t => (token_value t < 2 ^ 32)%N) l ->
  VKD3D_AUTO_CAPTURE_COUNTS h = Some (counts_text l) ->
  (k < List.length instances)%nat ->
  Z.of_nat k < UINT32_MOD ->
  nth k (fst (begin_captures instances (after_init h))) false = true <->
  In (N.of_nat k) (map token_value l).
Proof.
  intros Hv Hc Hk Hu.
  destruct (after_init_enabled h) as (_ & Hz & _ & Hl).
  { rewrite Hc. apply orb_true_r. }
  unfold configured_counts in Hl. rewrite Hc in Hl.
  assert (Hl' : renderdoc_capture_counts (after_init h) =
                map (fun t => Z.of_N (token_value t)) l).
  { rewrite Hl. unfold vkd3d_renderdoc_init_capture_count_list, bind, ret.
    rewrite (count_list_loop_tokens (host_data_model h) l _ initial_state Hv
               (Nat.lt_succ_diag_r _)).
    cbn [snd]. destruct (stored_tokens l initial_state) as [Hs _].
    rewrite Hs. reflexivity. }
  rewrite begin_captures_results, Hz, Hl'.
  set (f := fun k0 => counts_contain (map (fun t => Z.of_N (token_value t)) l)
                        (to_uint32 (0 + Z.of_nat k0))).
  rewrite (nth_indep _ false (f 0%nat))
    by (rewrite length_map, length_seq; exact Hk).
  rewrite map_nth, seq_nth by exact Hk.
  unfold f. rewrite Z.add_0_l, to_uint32_id by (unfold is_uint32; lia).
  rewrite counts_contain_In, !in_map_iff.
  split; intros (t & Ht & Hin); exists t; (split; [lia|exact Hin]).
Qed.

Lemma X12_spec_decides_captures_witness :
  nth 2 (fst (begin_captures [0; 0; 0]
                (after_init
                   (Host LP64 None (Some (counts_text [Dec 0; Hex 2; Dec 5]))
                      NoLibrary)))) false = true.
Proof.
  apply (X12_spec_decides_captures
           (Host LP64 None (Some (counts_text [Dec 0; Hex 2; Dec 5])) NoLibrary)
           [Dec 0; Hex 2; Dec 5] [0; 0; 0] 2).
  - repeat constructor.
  - reflexivity.
  - simpl. lia.
  - unfold UINT32_MOD. simpl. lia.
  - simpl. auto.
Defined.

(** ** Edges of the counts spec *)

(** X13.  A number from [2^32] up to [2^64 - 1] in the counts spec is
    treated by the width of [unsigned long].  With 32 bits [strtoul]
    reports a range error: the turn logs the parse error, stores nothing
    and ends the loop.  With 64 bits there is no error: the value is cut to
    its low 32 bits by the assignment to [uint32_t], that index is stored
    and the loop goes on. *)
Theorem X13_index_beyond_32_bits t rest st :
  is_comma (peek rest) || is_nul (peek rest) = true ->
  (2 ^ 32 <= token_value t < 2 ^ 64)%N ->
  count_list_body LLP64 (String.append (token_text t) rest) st =
    (Break, turn_failed_range st) /\
  count_list_body LP64 (String.append (token_text t) rest) st =
    (Continue (if is_comma (peek rest) then next rest else rest),
     turn_stored (Z.of_N (token_value t) mod 2 ^ 32) st).
Proof.
  intros He Hv. split.
  - apply count_list_body_range. unfold strtoul.
    rewrite (strto_unsigned_token _ t rest He).
    destruct (Z.gtb_spec (Z.of_N (token_value t)) (ULONG_MAX LLP64));
      [reflexivity|unfold ULONG_MAX in *; lia].
  - assert (Hs : strtoul LP64 (String.append (token_text t) rest) 0 =
                 Conversion (Z.of_N (token_value t)) rest None)
      by (apply strtoul_token; [exact He|unfold ULONG_MAX; lia]).
    assert (E : conv_errno (strtoul LP64 (String.append (token_text t) rest) 0)
                = None) by now rewrite Hs.
    rewrite (count_list_body_converted LP64 _ st E), Hs.
    cbn [conv_value conv_endp].
    destruct (is_comma (peek rest)); [reflexivity|].
    simpl in He. rewrite He. reflexivity.
Qed.

Lemma X13_index_beyond_32_bits_witness :
  renderdoc_capture_counts
    (snd (count_list_body LLP64 "4294967298,7" initial_state)) = [] /\
  renderdoc_capture_counts
    (snd (count_list_body LP64 "4294967298,7" initial_state)) = [2].
Proof.
  destruct (X13_index_beyond_32_bits (Dec 4294967298) ",7" initial_state
              eq_refl) as [H1 H2].
  - cbn [token_value]. lia.
  - change (String.append (token_text (Dec 4294967298)) ",7")
      with "4294967298,7"%string in *.
    rewrite H1, H2. split; reflexivity.
Defined.

Lemma count_list_loop_step fuel dm env st env' st' :
  is_nul (peek env) = false ->
  count_list_body dm env st = (Continue env', st') ->
  count_list_loop (S fuel) dm env st = count_list_loop fuel dm env' st'.
Proof.
  intros Hn Hb. cbn [count_list_loop]. rewrite Hn. unfold bind.
  rewrite Hb. reflexivity.
Qed.

(** X14.  A comma with no number before it is not an error: the turn
    stores the index 0 for the empty token, and the parser goes on with the
    text after the comma. *)
Theorem X14_empty_token_stores_0 dm rest st :
  vkd3d_renderdoc_init_capture_count_list dm (String "," rest) st =
  vkd3d_renderdoc_init_capture_count_list dm rest (turn_stored 0 st).
Proof.
  unfold vkd3d_renderdoc_init_capture_count_list, bind.
  cbn [String.length].
  assert (Hs : strtoul dm (String "," rest) 0 =
               Conversion 0 (String "," rest) None) by reflexivity.
  assert (E : conv_errno (strtoul dm (String "," rest) 0) = None)
    by now rewrite Hs.
  rewrite (count_list_loop_step (S (String.length rest)) dm (String "," rest)
             st rest (turn_stored 0 st)); [reflexivity|reflexivity|].
  rewrite (count_list_body_converted dm _ st E), Hs. reflexivity.
Qed.

Lemma string_append_assoc s1 s2 s3 :
  String.append (String.append s1 s2) s3 =
  String.append s1 (String.append s2 s3).
Proof. induction s1 as [|c s IH]; simpl; [reflexivity|now rewrite IH]. Qed.

Lemma count_list_loop_tokens_comma dm l : forall fuel st,
  l <> [] ->
  Forall (fun t => (token_value t < 2 ^ 32)%N) l ->
  (String.length (String.append (counts_text l) ",") < fuel)%nat ->
  count_list_loop fuel dm (String.append (counts_text l) ",") st =
  (true, fold_left (fun s t => turn_stored (Z.of_N (token_value t)) s) l st).
Proof.
  induction l as [|t rest IH]; intros fuel st Hne Hv Hf; [now elim Hne|].
  inversion Hv as [|t' rest' Ht Hrest]; subst.
  destruct fuel as [|fuel]; [lia|].
  cbn [counts_text fold_left] in *.
  destruct rest as [|t2 rest2].
  - rewrite (count_list_loop_step fuel dm _ st EmptyString
               (turn_stored (Z.of_N (token_value t)) st)).
    + destruct fuel as [|fuel]; [|reflexivity].
      rewrite string_append_length in Hf. simpl in Hf. lia.
    + apply token_text_starts.
    + apply (count_list_body_token dm t "," st eq_refl Ht).
  - set (tail := counts_text (t2 :: rest2)) in *.
    rewrite string_append_assoc in *. cbn [String.append] in *.
    rewrite (count_list_loop_step fuel dm _ st (String.append tail ",")
               (turn_stored (Z.of_N (token_value t)) st)).
    + apply IH; [discriminate|exact Hrest|].
      rewrite string_append_length in Hf. simpl in Hf. lia.
    + apply token_text_starts.
    + apply (count_list_body_token dm t (String "," (String.append tail ","))
               st eq_refl Ht).
Qed.

(** X15.  A comma after the last number of a counts spec written as in X10
    changes nothing: the parser ends in the same state as without it. *)
Theorem X15_trailing_comma dm l st :
  l <> [] ->
  Forall (fun t => (token_value t < 2 ^ 32)%N) l ->
  vkd3d_renderdoc_init_capture_count_list dm
    (String.append (counts_text l) ",") st =
  vkd3d_renderdoc_init_capture_count_list dm (counts_text l) st.
Proof.
  intros Hne Hv. unfold vkd3d_renderdoc_init_capture_count_list, bind, ret.
  rewrite (count_list_loop_tokens_comma dm l _ st Hne Hv
             (Nat.lt_succ_diag_r _)).
  rewrite (count_list_loop_tokens dm l _ st Hv (Nat.lt_succ_diag_r _)).
  reflexivity.
Qed.

Lemma X15_trailing_comma_witness :
  vkd3d_renderdoc_init_capture_count_list LP64 "1,0x2,3," initial_state =
  vkd3d_renderdoc_init_capture_count_list LP64 "1,0x2,3" initial_state.
Proof.
  apply (X15_trailing_comma LP64 [Dec 1; Hex 2; Dec 3] initial_state).
  - discriminate.
  - repeat constructor.
Defined.
